(** * A shallow embedding of the Lisk chain engine ([Chain] of
    [src/commands/node/start/index.ts]) and of the collaborators it calls:
    the block reward schedule, the data access layer, the slot calculator
    and the proof-of-misbehavior transaction asset. *)

From Stdlib Require Import ZArith List Bool String.
From stdpp Require Import base gmap strings list fin_maps sorting.
Import ListNotations.

Local Open Scope Z_scope.

(* ------------------------------------------------------------------ *)
(** ** Data model ([types.ts]) *)

(** A [Buffer] address or identifier, compared with [Buffer.equals]. *)
Definition Address := string.

Record BlockHeader := {
  h_id : string;
  h_version : Z;
  h_timestamp : Z;
  h_height : Z;
  h_previousBlockID : string;
  h_generatorPublicKey : string;
  h_reward : Z;
  h_signature : string;
}.

Record Block := {
  b_header : BlockHeader;
  b_payload : list string;
}.

(** Module-defined account state: token balance and the dpos fields the
    proof-of-misbehavior asset reads and writes. *)
Record Account := {
  a_address : Address;
  a_balance : Z;
  a_isDelegate : bool;
  a_isBanned : bool;
  a_pomHeights : list Z;
}.

Record GenesisBlock := {
  g_header : BlockHeader;
  g_initRounds : Z;
  g_initDelegates : list Address;
  g_accounts : list Account;
}.

Record Validator := {
  v_address : Address;
  v_isConsensusParticipant : bool;
  v_minActiveHeight : Z;
}.

(** The element type of the [validators] argument of [setValidators]. *)
Record ValidatorCandidate := {
  c_address : Address;
  c_isConsensusParticipant : bool;
}.

Record BlockRewardOptions := {
  distance : Z;
  rewardOffset : Z;
  milestones : list Z;
}.

(** A value of the persistent key-value store. The codec is schema driven
    and injective, so a value is kept decoded, tagged by its schema;
    [SBytes] stands for any other encoded blob. *)
Inductive StoredValue :=
  | SAccount (a : Account)
  | SValidators (vs : list Validator)
  | SBytes (b : list Z).

Definition accountKey (addr : Address) : string := "accounts:address:" ++ addr.
Definition consensusKey (k : string) : string := "consensus:" ++ k.

(** [CONSENSUS_STATE_VALIDATORS_KEY] of [constants.ts]. *)
Definition CONSENSUS_STATE_VALIDATORS_KEY : string := "validators".

Inductive ChainEvent :=
  | EvNewBlock (block : Block) (accounts : list Account)
  | EvDeleteBlock (block : Block) (accounts : list Account)
  | EvValidatorsChanged (validators : list Validator).

(** The [StateStore] overlay: the entries written since it was created
    (account and consensus sub-stores share one key space, separated by
    [accountKey] and [consensusKey]), the window of recent headers and the
    last block reward. Reads fall through to the persistent store. *)
Record StateStore := {
  ss_updates : gmap string StoredValue;
  ss_lastBlockHeaders : list BlockHeader;
  ss_lastBlockReward : Z;
}.

(** The state diff recorded by [saveBlock] for one block: for every key the
    block wrote, the value it had before ([None]: the key was created). *)
Abbreviation StateDiff := (gmap string (option StoredValue)).

(** Everything [Chain] and its [DataAccess] own: the persistent store
    (state entries, blocks by id, state diffs by block id, the temp block
    table), the block header cache, the in-memory tip, the validator
    count, the emitted events and the debug log. *)
Record World := {
  w_state : gmap string StoredValue;
  w_blocks : gmap string Block;
  w_diffs : gmap string StateDiff;
  w_tempBlocks : gmap string Block;
  w_headerCache : list BlockHeader;
  w_lastBlock : Block;
  w_numberOfValidators : Z;
  w_events : list ChainEvent;
  w_logs : list string;
}.

(* ------------------------------------------------------------------ *)
(** ** Effects: asynchronous methods that may reject

    A method runs on the chain's [World] and on the [StateStore] object it
    was given; a rejected promise is [Err], and whatever was mutated
    before the [throw] stays mutated. *)

Inductive Result (A : Type) :=
  | Ok (a : A)
  | Err (msg : string).
Arguments Ok {A} a.
Arguments Err {A} msg.

Definition M (A : Type) := World * StateStore -> Result A * (World * StateStore).

Definition ret {A} (a : A) : M A := fun s => (Ok a, s).

Definition bind {A B} (m : M A) (k : A -> M B) : M B :=
  fun s =>
    match m s with
    | (Ok a, s') => k a s'
    | (Err e, s') => (Err e, s')
    end.

Notation "x <- m ;; k" := (bind m (fun x => k))
  (at level 100, m at next level, right associativity).
Notation "m ;;; k" := (bind m (fun _ => k))
  (at level 100, right associativity).

Definition throw {A} (msg : string) : M A := fun s => (Err msg, s).

Definition catchM {A} (m : M A) (handler : string -> M A) : M A :=
  fun s =>
    match m s with
    | (Err e, s') => handler e s'
    | r => r
    end.

Definition getW : M World := fun s => (Ok s.1, s).
Definition modifyW (f : World -> World) : M unit := fun s => (Ok tt, (f s.1, s.2)).
Definition getSS : M StateStore := fun s => (Ok s.2, s).
Definition modifySS (f : StateStore -> StateStore) : M unit := fun s => (Ok tt, (s.1, f s.2)).

Definition run {A} (m : M A) (w : World) (ss : StateStore) : Result A * (World * StateStore) :=
  m (w, ss).

(** Field updates of [World]. *)
Definition w_set_state (x : gmap string StoredValue) (w : World) : World :=
  {| w_state := x; w_blocks := w_blocks w; w_diffs := w_diffs w;
     w_tempBlocks := w_tempBlocks w; w_headerCache := w_headerCache w;
     w_lastBlock := w_lastBlock w; w_numberOfValidators := w_numberOfValidators w;
     w_events := w_events w; w_logs := w_logs w |}.
Definition w_set_blocks (x : gmap string Block) (w : World) : World :=
  {| w_state := w_state w; w_blocks := x; w_diffs := w_diffs w;
     w_tempBlocks := w_tempBlocks w; w_headerCache := w_headerCache w;
     w_lastBlock := w_lastBlock w; w_numberOfValidators := w_numberOfValidators w;
     w_events := w_events w; w_logs := w_logs w |}.
Definition w_set_diffs (x : gmap string StateDiff) (w : World) : World :=
  {| w_state := w_state w; w_blocks := w_blocks w; w_diffs := x;
     w_tempBlocks := w_tempBlocks w; w_headerCache := w_headerCache w;
     w_lastBlock := w_lastBlock w; w_numberOfValidators := w_numberOfValidators w;
     w_events := w_events w; w_logs := w_logs w |}.
Definition w_set_tempBlocks (x : gmap string Block) (w : World) : World :=
  {| w_state := w_state w; w_blocks := w_blocks w; w_diffs := w_diffs w;
     w_tempBlocks := x; w_headerCache := w_headerCache w;
     w_lastBlock := w_lastBlock w; w_numberOfValidators := w_numberOfValidators w;
     w_events := w_events w; w_logs := w_logs w |}.
Definition w_set_headerCache (x : list BlockHeader) (w : World) : World :=
  {| w_state := w_state w; w_blocks := w_blocks w; w_diffs := w_diffs w;
     w_tempBlocks := w_tempBlocks w; w_headerCache := x;
     w_lastBlock := w_lastBlock w; w_numberOfValidators := w_numberOfValidators w;
     w_events := w_events w; w_logs := w_logs w |}.
Definition w_set_lastBlock (x : Block) (w : World) : World :=
  {| w_state := w_state w; w_blocks := w_blocks w; w_diffs := w_diffs w;
     w_tempBlocks := w_tempBlocks w; w_headerCache := w_headerCache w;
     w_lastBlock := x; w_numberOfValidators := w_numberOfValidators w;
     w_events := w_events w; w_logs := w_logs w |}.
Definition w_add_event (e : ChainEvent) (w : World) : World :=
  {| w_state := w_state w; w_blocks := w_blocks w; w_diffs := w_diffs w;
     w_tempBlocks := w_tempBlocks w; w_headerCache := w_headerCache w;
     w_lastBlock := w_lastBlock w; w_numberOfValidators := w_numberOfValidators w;
     w_events := w_events w ++ [e]; w_logs := w_logs w |}.
Definition w_add_log (msg : string) (w : World) : World :=
  {| w_state := w_state w; w_blocks := w_blocks w; w_diffs := w_diffs w;
     w_tempBlocks := w_tempBlocks w; w_headerCache := w_headerCache w;
     w_lastBlock := w_lastBlock w; w_numberOfValidators := w_numberOfValidators w;
     w_events := w_events w; w_logs := w_logs w ++ [msg] |}.

Definition emit (e : ChainEvent) : M unit := modifyW (w_add_event e).
Definition debug (msg : string) : M unit := modifyW (w_add_log msg).

(* ------------------------------------------------------------------ *)
(** ** Block reward schedule ([block_reward.ts]) *)

(** Modelled from the spec: [calculateDefaultReward] of [block_reward.ts]
    (not in the sources). "Before [rewardOffset], reward is 0; each
    [rewardDistance] blocks after offset, reward steps down to the next
    milestone in the provided descending list; after the list is
    exhausted, reward holds at the last milestone value." The milestone
    index is the number of whole [distance]s elapsed since the offset. An
    empty milestone list (whose last element is [undefined] in the source)
    is read here as 0. *)
Definition calculateDefaultReward (args : BlockRewardOptions) (height : Z) : Z :=
  if height <? rewardOffset args then 0
  else
    let location := (height - rewardOffset args) / distance args in
    let lastMile := List.last (milestones args) 0 in
    if Z.of_nat (length (milestones args)) - 1 <? location then lastMile
    else nth (Z.to_nat location) (milestones args) 0.

(* ------------------------------------------------------------------ *)
(** ** Data access layer ([data_access.ts]) *)

(** Modelled from the spec: [DataAccess.getBlockByID] ("All reads for IDs
    not present fail with a NotFound kind"). *)
Definition getBlockByID (id : string) : M Block :=
  w <- getW ;;
  match w_blocks w !! id with
  | Some b => ret b
  | None => throw "NotFoundError: block"
  end.

(** Modelled from the spec: [DataAccess.getConsensusState], a read of the
    consensus key space of the persistent store. *)
Definition getConsensusState (key : string) : M (option StoredValue) :=
  w <- getW ;; ret (w_state w !! consensusKey key).

(** Modelled from the spec: [DataAccess.getBlockHeadersByHeightBetween],
    the headers of the stored blocks whose height lies in
    [[fromHeight, toHeight]], in the order the store returns them (the
    spec fixes no order). *)
Definition getBlockHeadersByHeightBetween (w : World) (fromHeight toHeight : Z)
    : list BlockHeader :=
  filter (fun h => fromHeight <= h_height h <= toHeight)
    (map (fun kv => b_header kv.2) (map_to_list (w_blocks w))).

(** The diff of a commit: for each written key, its value before. *)
Definition stateDiffOf (updates : gmap string StoredValue)
    (state : gmap string StoredValue) : StateDiff :=
  map_imap (fun k _ => Some (state !! k)) updates.

(** Reverting one key of a diff: a created key is deleted, an updated key
    gets its previous value back, a key outside the diff is untouched. *)
Definition revertEntry (d : option (option StoredValue)) (cur : option StoredValue)
    : option StoredValue :=
  match d with
  | Some prev => prev
  | None => cur
  end.

Definition revertDiff (d : StateDiff) (state : gmap string StoredValue)
    : gmap string StoredValue :=
  merge revertEntry d state.

Definition accountsOf (vs : list StoredValue) : list Account :=
  omap (fun v => match v with SAccount a => Some a | _ => None end) vs.

(** [StateStore.account.getUpdated]. *)
Definition getUpdated (ss : StateStore) : list Account :=
  accountsOf (map snd (map_to_list (ss_updates ss))).

(** Modelled from the spec: [DataAccess.saveBlock] "atomically persists
    the block, commits the StateStore diff". Only the dirty entries of
    the state store are written, and the diff against the persisted
    values is stored with the block so that [removeBlock] can revert it.
    The spec names no effect of [finalizedHeight] on the store. *)
Definition dataAccess_saveBlock (block : Block) (finalizedHeight : Z)
    (removeFromTempTable : bool) : M unit :=
  w <- getW ;;
  ss <- getSS ;;
  let id := h_id (b_header block) in
  let upd := ss_updates ss in
  modifyW (fun w =>
    w_set_tempBlocks (if removeFromTempTable then delete id (w_tempBlocks w) else w_tempBlocks w)
      (w_set_diffs (<[id := stateDiffOf upd (w_state w)]> (w_diffs w))
        (w_set_blocks (<[id := block]> (w_blocks w))
          (w_set_state (upd ∪ w_state w) w)))).

(** Modelled from the spec: [DataAccess.deleteBlock] "reverts the persisted
    diff" of the block, deletes the block (keeping it in the temp table if
    asked) and returns the reverted accounts. A missing diff is a storage
    [NotFound]. *)
Definition dataAccess_deleteBlock (block : Block) (saveTempBlock : bool)
    : M (list Account) :=
  w <- getW ;;
  let id := h_id (b_header block) in
  match w_diffs w !! id with
  | None => throw "NotFoundError: state diff"
  | Some d =>
      modifyW (fun w =>
        w_set_tempBlocks (if saveTempBlock then <[id := block]> (w_tempBlocks w) else w_tempBlocks w)
          (w_set_diffs (delete id (w_diffs w))
            (w_set_blocks (delete id (w_blocks w))
              (w_set_state (revertDiff d (w_state w)) w)))) ;;;
      ret (accountsOf (omap (fun x => x) (map snd (map_to_list d))))
  end.

Section DataAccessCache.
Variable maxBlockHeaderCache : nat.

(** Modelled from the spec: [DataAccess.addBlockHeader], the bounded
    header cache that "evicts oldest beyond max". *)
Definition addBlockHeader (h : BlockHeader) : M unit :=
  modifyW (fun w =>
    let c := w_headerCache w ++ [h] in
    w_set_headerCache (if (maxBlockHeaderCache <? length c)%nat then tail c else c) w).
End DataAccessCache.

(** Modelled from the spec: [DataAccess.removeBlockHeader]. *)
Definition removeBlockHeader (id : string) : M unit :=
  modifyW (fun w =>
    w_set_headerCache (filter (fun h => h_id h <> id) (w_headerCache w)) w).

(** [StateStore.consensus.get]: the overlay first, then the persistent
    store. *)
Definition stateStoreConsensusRead (w : World) (ss : StateStore) (key : string)
    : option StoredValue :=
  match ss_updates ss !! consensusKey key with
  | Some v => Some v
  | None => w_state w !! consensusKey key
  end.

Definition consensusGet (key : string) : M (option StoredValue) :=
  w <- getW ;;
  ss <- getSS ;;
  ret (stateStoreConsensusRead w ss key).

(** [StateStore.consensus.set]. *)
Definition consensusSet (key : string) (v : StoredValue) : M unit :=
  modifySS (fun ss =>
    {| ss_updates := <[consensusKey key := v]> (ss_updates ss);
       ss_lastBlockHeaders := ss_lastBlockHeaders ss;
       ss_lastBlockReward := ss_lastBlockReward ss |}).

(** [codec.decode(validatorsSchema, buffer)]: throws on a blob of another
    schema. *)
Definition decodeValidators (v : StoredValue) : M (list Validator) :=
  match v with
  | SValidators vs => ret vs
  | _ => throw "Invalid validators encoding"
  end.

(* ------------------------------------------------------------------ *)
(** ** The chain engine ([Chain] of [index.ts]) *)

(** The genesis block passed where a [Block] is expected, as the
    constructor does with [genesisBlock as unknown as Block]; its payload
    is empty. *)
Definition genesisBlockAsBlock (g : GenesisBlock) : Block :=
  {| b_header := g_header g; b_payload := [] |}.

Section ChainEngine.

(** The constructor arguments the methods below read. *)
Variable genesisBlock : GenesisBlock.
Variable blockRewardArgs : BlockRewardOptions.
Variable blockTime : Z.
Variable maxBlockHeaderCache : nat.

(** [isValidSeedReveal] of [verify.ts] (not in the sources), taken as an
    arbitrary check of the header against the state store and the number
    of validators: the statements below hold whatever it decides. *)
Variable isValidSeedReveal_verify : BlockHeader -> StateStore -> Z -> bool.

(** Modelled from the spec: [Slots.getSlotNumber] of [slots.ts], which
    "maps wall-clock time to discrete block slots ... given genesis
    timestamp and block interval": the number of whole intervals elapsed
    since the genesis timestamp, rounded down. *)
Definition getSlotNumber (timestamp : Z) : Z :=
  (timestamp - h_timestamp (g_header genesisBlock)) / blockTime.

Definition calculateDefaultReward_chain (height : Z) : Z :=
  calculateDefaultReward blockRewardArgs height.

Definition isValidSeedReveal (w : World) (blockHeader : BlockHeader) (stateStore : StateStore)
    : bool :=
  isValidSeedReveal_verify blockHeader stateStore (w_numberOfValidators w).

Definition calculateExpectedReward (w : World) (blockHeader : BlockHeader)
    (stateStore : StateStore) : Z :=
  let defaultReward := calculateDefaultReward_chain (h_height blockHeader) in
  let isValid := isValidSeedReveal w blockHeader stateStore in
  if isValid then defaultReward else 0.

(** [newStateStore(skipLastHeights)]. [lastBlockHeaders[0]?.height ?? 1]
    falls back to height 1 when the window is empty. *)
Definition newStateStore (w : World) (skipLastHeights : Z) : StateStore :=
  let fromHeight :=
    Z.max 0 (h_height (b_header (w_lastBlock w)) - w_numberOfValidators w * 3 - skipLastHeights) in
  let toHeight := Z.max (h_height (b_header (w_lastBlock w)) - skipLastHeights) 1 in
  let lastBlockHeaders := getBlockHeadersByHeightBetween w fromHeight toHeight in
  let lastBlockReward :=
    calculateDefaultReward_chain
      (match lastBlockHeaders with h :: _ => h_height h | [] => 1 end) in
  {| ss_updates := ∅;
     ss_lastBlockHeaders := lastBlockHeaders;
     ss_lastBlockReward := lastBlockReward |}.

Definition saveBlock (block : Block) (finalizedHeight : Z) (removeFromTempTable : bool)
    : M unit :=
  dataAccess_saveBlock block finalizedHeight removeFromTempTable ;;;
  addBlockHeader maxBlockHeaderCache (b_header block) ;;;
  modifyW (w_set_lastBlock block) ;;;
  ss <- getSS ;;
  emit (EvNewBlock block (getUpdated ss)).

Definition removeBlock (block : Block) (saveTempBlock : bool) : M unit :=
  if h_version (b_header block) =? h_version (g_header genesisBlock) then
    throw "Cannot delete genesis block"
  else
    secondLastBlock <-
      catchM (getBlockByID (h_previousBlockID (b_header block)))
        (fun _ => throw "PreviousBlock is null") ;;
    updatedAccounts <- dataAccess_deleteBlock block saveTempBlock ;;
    removeBlockHeader (h_id (b_header block)) ;;;
    modifyW (w_set_lastBlock secondLastBlock) ;;;
    emit (EvDeleteBlock block updatedAccounts).

Definition getValidators : M (list Validator) :=
  validatorsBuffer <- getConsensusState CONSENSUS_STATE_VALIDATORS_KEY ;;
  match validatorsBuffer with
  | None => ret []
  | Some v => decodeValidators v
  end.

(** JavaScript's [a % n] on integers: [NaN] (here [None]) when [n] is 0,
    otherwise the remainder truncated toward zero, with the sign of [a]. *)
Definition jsRemainder (a n : Z) : option Z :=
  if n =? 0 then None else Some (Z.rem a n).

(** JavaScript's [arr[i]]: [undefined] (here [None]) for [NaN], a
    negative index or an index past the end. *)
Definition jsIndex {A} (l : list A) (i : option Z) : option A :=
  match i with
  | None => None
  | Some i => if i <? 0 then None else nth_error l (Z.to_nat i)
  end.

Definition getValidator (timestamp : Z) : M (option Validator) :=
  validators <- getValidators ;;
  let currentSlot := getSlotNumber timestamp in
  ret (jsIndex validators (jsRemainder currentSlot (Z.of_nat (length validators)))).

Definition getLastBootstrapHeight (w : World) : Z :=
  w_numberOfValidators w * g_initRounds genesisBlock + h_height (g_header genesisBlock).

(** The [minActiveHeight] kept for a candidate: that of the first entry of
    the previous set with the same address, or [height + 1]. *)
Definition nextMinActiveHeight (previousValidators : list Validator) (height : Z)
    (nextValidator : ValidatorCandidate) : Z :=
  match find (fun pv => String.eqb (v_address pv) (c_address nextValidator)) previousValidators with
  | Some previousInfo => v_minActiveHeight previousInfo
  | None => height + 1
  end.

Definition nextValidatorSet (previousValidators : list Validator) (height : Z)
    (validators : list ValidatorCandidate) : list Validator :=
  map (fun nextValidator =>
         {| v_address := c_address nextValidator;
            v_isConsensusParticipant := c_isConsensusParticipant nextValidator;
            v_minActiveHeight := nextMinActiveHeight previousValidators height nextValidator |})
    validators.

Definition setValidators (validators : list ValidatorCandidate) (blockHeader : BlockHeader)
    : M unit :=
  w <- getW ;;
  if getLastBootstrapHeight w >? h_height blockHeader then
    debug "Skipping updating validator since current height is lower than last bootstrap height"
  else
    validatorsBuffer <- consensusGet CONSENSUS_STATE_VALIDATORS_KEY ;;
    match validatorsBuffer with
    | None => throw "Previous validator set must exist"
    | Some buf =>
        previousValidators <- decodeValidators buf ;;
        let nextSet := nextValidatorSet previousValidators (h_height blockHeader) validators in
        consensusSet CONSENSUS_STATE_VALIDATORS_KEY (SValidators nextSet) ;;;
        emit (EvValidatorsChanged nextSet)
    end.

End ChainEngine.

(* ------------------------------------------------------------------ *)
(** ** Start-up and genesis ([init], [genesisBlockExist],
    [applyGenesisBlock] of [Chain]) *)

Definition w_set_numberOfValidators (x : Z) (w : World) : World :=
  {| w_state := w_state w; w_blocks := w_blocks w; w_diffs := w_diffs w;
     w_tempBlocks := w_tempBlocks w; w_headerCache := w_headerCache w;
     w_lastBlock := w_lastBlock w; w_numberOfValidators := x;
     w_events := w_events w; w_logs := w_logs w |}.

(** [for (const x of l) { await f(x); }]. *)
Fixpoint forEach {A} (f : A -> M unit) (l : list A) : M unit :=
  match l with
  | [] => ret tt
  | x :: l' => f x ;;; forEach f l'
  end.

(** The stored block of greatest height (on a tie, the one met last in the
    store's order). *)
Definition highestBlock (bs : list Block) : option Block :=
  fold_right (fun b acc =>
    match acc with
    | None => Some b
    | Some a => if h_height (b_header a) <? h_height (b_header b) then Some b else Some a
    end) None bs.

(** Modelled from the spec: [DataAccess.getLastBlock], which loads "the
    last committed block", the stored block of greatest height; an empty
    store is a [NotFound]. *)
Definition getLastBlock : M Block :=
  w <- getW ;;
  match highestBlock (map snd (map_to_list (w_blocks w))) with
  | Some b => ret b
  | None => throw "NotFoundError: last block"
  end.

(** Modelled from the spec: [DataAccess.getLastBlockHeader], the header of
    the last committed block. *)
Definition getLastBlockHeader : M BlockHeader :=
  b <- getLastBlock ;; ret (b_header b).

(** Modelled from the spec: [DataAccess.getBlockHeaderByID], the header of
    the stored block with that id, [NotFound] when there is none. *)
Definition getBlockHeaderByID (id : string) : M BlockHeader :=
  b <- getBlockByID id ;; ret (b_header b).

(** [error instanceof NotFoundError]. *)
Definition isNotFoundError (error : string) : bool :=
  String.prefix "NotFoundError" error.

(** [StateStore.account.set(address, account)]. *)
Definition accountSet (address : Address) (account : Account) : M unit :=
  modifySS (fun ss =>
    {| ss_updates := <[accountKey address := SAccount account]> (ss_updates ss);
       ss_lastBlockHeaders := ss_lastBlockHeaders ss;
       ss_lastBlockReward := ss_lastBlockReward ss |}).

(** The comparator [(a, b) => a.height - b.height] of [_cacheBlockHeaders];
    [Array.prototype.sort] is stable, as [merge_sort] is. *)
Definition heightLe (a b : BlockHeader) : Prop := h_height a <= h_height b.

#[global] Instance heightLe_dec : RelDecision heightLe :=
  fun a b => Z.le_dec (h_height a) (h_height b).

Definition genesisBlockExist (genesisBlock : GenesisBlock) : M bool :=
  matchingGenesisBlock <-
    catchM (h <- getBlockHeaderByID (h_id (g_header genesisBlock)) ;; ret (Some h))
      (fun error => if isNotFoundError error then ret None else throw error) ;;
  lastBlockHeader <-
    catchM (h <- getLastBlockHeader ;; ret (Some h))
      (fun error => if isNotFoundError error then ret None else throw error) ;;
  match lastBlockHeader, matchingGenesisBlock with
  | Some _, None => throw "Genesis block does not match"
  | None, None => ret false
  | _, _ => ret true
  end.

Definition applyGenesisBlock (block : GenesisBlock) : M unit :=
  forEach (fun account => accountSet (a_address account) account) (g_accounts block) ;;;
  let initialValidators :=
    map (fun address =>
           {| v_address := address;
              v_minActiveHeight := h_height (g_header block) + 1;
              v_isConsensusParticipant := false |})
      (g_initDelegates block) in
  consensusSet CONSENSUS_STATE_VALIDATORS_KEY (SValidators initialValidators) ;;;
  modifyW (w_set_numberOfValidators (Z.of_nat (length (g_initDelegates block)))).

(** The account entries written by the loop of [applyGenesisBlock], and
    the validator set it writes. *)
Definition writeAccounts (accounts : list Account) (upd : gmap string StoredValue)
    : gmap string StoredValue :=
  fold_left (fun m account => <[accountKey (a_address account) := SAccount account]> m)
    accounts upd.

Definition initialValidatorsOf (block : GenesisBlock) : list Validator :=
  map (fun address =>
         {| v_address := address;
            v_minActiveHeight := h_height (g_header block) + 1;
            v_isConsensusParticipant := false |})
    (g_initDelegates block).

Section ChainInit.

Variable genesisBlock : GenesisBlock.
Variable maxBlockHeaderCache : nat.
(** [DEFAULT_MAX_BLOCK_HEADER_CACHE] of [constants.ts], the size of the
    window [_cacheBlockHeaders] loads (the cache itself evicts at the
    configured [maxBlockHeaderCache]). *)
Variable DEFAULT_MAX_BLOCK_HEADER_CACHE : Z.

Definition cacheBlockHeaders (storageLastBlock : Block) : M unit :=
  let fromHeight :=
    Z.max (h_height (b_header storageLastBlock) - DEFAULT_MAX_BLOCK_HEADER_CACHE) 0 in
  let toHeight := h_height (b_header storageLastBlock) in
  debug "Cache block headers during chain init" ;;;
  w <- getW ;;
  let blockHeaders := getBlockHeadersByHeightBetween w fromHeight toHeight in
  let sortedBlockHeaders := merge_sort heightLe blockHeaders in
  forEach (fun blockHeader =>
             debug "Add block header to cache" ;;;
             addBlockHeader maxBlockHeaderCache blockHeader)
    sortedBlockHeaders.

Definition init : M unit :=
  storageLastBlock <-
    catchM getLastBlock (fun _ => throw "Failed to load last block") ;;
  (if negb (h_height (b_header storageLastBlock) =? h_height (g_header genesisBlock))
   then cacheBlockHeaders storageLastBlock
   else ret tt) ;;;
  validators <- getValidators ;;
  modifyW (w_set_numberOfValidators (Z.of_nat (length validators))) ;;;
  modifyW (w_set_lastBlock storageLastBlock).

End ChainInit.

(** The milestone list is descending (non-increasing). *)
Definition descending (l : list Z) : Prop :=
  forall i j, (i <= j)%nat -> (j < length l)%nat -> nth j l 0 <= nth i l 0.

(** The state store after [setValidators] wrote [vs]. *)
Definition ss_with_validators (ss : StateStore) (vs : list Validator) : StateStore :=
  {| ss_updates := <[consensusKey CONSENSUS_STATE_VALIDATORS_KEY := SValidators vs]> (ss_updates ss);
     ss_lastBlockHeaders := ss_lastBlockHeaders ss;
     ss_lastBlockReward := ss_lastBlockReward ss |}.

(* ------------------------------------------------------------------ *)
(** ** Proof-of-misbehavior ([pom_transaction_asset.ts]) *)

Module Pom.

(** [MAX_POM_HEIGHTS] and [MAX_PUNISHABLE_BLOCK_HEIGHT_DIFFERENCE]. *)
Definition MAX_POM_HEIGHTS : Z := 5.
Definition MAX_PUNISHABLE_BLOCK_HEIGHT_DIFFERENCE : Z := 260000.

(** The [token:credit] and [token:debit] reducers on the account store. *)
Definition credit (address : Address) (amount : Z) (accounts : gmap Address Account)
    : gmap Address Account :=
  alter (fun a => {| a_address := a_address a; a_balance := a_balance a + amount;
                     a_isDelegate := a_isDelegate a; a_isBanned := a_isBanned a;
                     a_pomHeights := a_pomHeights a |}) address accounts.

Definition debit (address : Address) (amount : Z) (accounts : gmap Address Account)
    : gmap Address Account :=
  alter (fun a => {| a_address := a_address a; a_balance := a_balance a - amount;
                     a_isDelegate := a_isDelegate a; a_isBanned := a_isBanned a;
                     a_pomHeights := a_pomHeights a |}) address accounts.

Section PomApply.

(** [getAddressFromPublicKey] of the cryptography library and the
    signature check of a header against the network identifier, both
    arbitrary here. *)
Variable getAddressFromPublicKey : string -> Address.
Variable validHeaderSignature : BlockHeader -> bool.

(** Modelled from the spec: [PomTransactionAsset.apply] (not in the
    sources; only its unit tests are), after section 4.5 of the spec. The
    reporting height is [lastBlockHeight + 1]; the checks run in the
    order the spec lists them; then the height is appended to the
    accused's strike list, the banned flag is set if the list reaches 5
    entries, and the reward [min(lastBlockReward, accusedBalance -
    minRemainingBalance)] floored at 0 (0 when reporter and accused are
    the same address) is moved from the accused to the reporter. *)
Definition apply (accounts : gmap Address Account)
    (lastBlockHeight lastBlockReward minRemainingBalance : Z)
    (senderAddress : Address) (header1 header2 : BlockHeader)
    : Result (gmap Address Account) :=
  let currentHeight := lastBlockHeight + 1 in
  if MAX_PUNISHABLE_BLOCK_HEIGHT_DIFFERENCE <=? Z.abs (h_height header1 - currentHeight) then
    Err "Difference between header1.height and current height must be less than 260000."
  else if MAX_PUNISHABLE_BLOCK_HEIGHT_DIFFERENCE <=? Z.abs (h_height header2 - currentHeight) then
    Err "Difference between header2.height and current height must be less than 260000."
  else if negb (validHeaderSignature header1) then
    Err "Invalid block signature for header 1."
  else if negb (validHeaderSignature header2) then
    Err "Invalid block signature for header 2."
  else
    let delegateAddress := getAddressFromPublicKey (h_generatorPublicKey header1) in
    match accounts !! delegateAddress with
    | None => Err "NotFoundError: account"
    | Some delegateAccount =>
        if negb (a_isDelegate delegateAccount) then
          Err "Account is not a delegate."
        else if a_isBanned delegateAccount then
          Err "Cannot apply proof-of-misbehavior. Delegate is already banned."
        else if existsb (Z.eqb currentHeight) (a_pomHeights delegateAccount) then
          Err "Cannot apply proof-of-misbehavior. Delegate is already punished."
        else
          let pomHeights := a_pomHeights delegateAccount ++ [currentHeight] in
          let updatedDelegateAccount :=
            {| a_address := a_address delegateAccount;
               a_balance := a_balance delegateAccount;
               a_isDelegate := a_isDelegate delegateAccount;
               a_isBanned :=
                 if Z.of_nat (length pomHeights) =? MAX_POM_HEIGHTS then true
                 else a_isBanned delegateAccount;
               a_pomHeights := pomHeights |} in
          let accounts1 := <[delegateAddress := updatedDelegateAccount]> accounts in
          let reward :=
            if String.eqb senderAddress delegateAddress then 0
            else Z.max 0 (Z.min lastBlockReward
                                (a_balance delegateAccount - minRemainingBalance)) in
          Ok (credit senderAddress reward (debit delegateAddress reward accounts1))
    end.

End PomApply.
End Pom.

(* ------------------------------------------------------------------ *)
(** ** The forger plugin's database helpers ([db.ts] of the forger
    plugin) *)

Module ForgerDB.

Record ForgetSyncInfo := { syncUptoHeight : Z }.

(** A [KVStore] from string keys to encoded buffers. *)
Abbreviation KVStore B := (gmap string B).

Section ForgerStore.

(** The element type of [votesReceived] ([types.ts], not in the
    sources), the encoded [Buffer]s of the key-value store, the two key
    constants of [constants.ts] (not in the sources), and the codec:
    [decode] is [None] where [codec.decode] throws. *)
Variable Vote : Type.
Variable Buffer : Type.
Variable DB_KEY_FORGER_INFO DB_KEY_FORGER_SYNC_INFO : string.

Record ForgerInfo := {
  totalProducedBlocks : Z;
  totalReceivedFees : Z;
  totalReceivedRewards : Z;
  votesReceived : list Vote;
}.

Variable encodeSyncInfo : ForgetSyncInfo -> Buffer.
Variable decodeSyncInfo : Buffer -> option ForgetSyncInfo.
Variable encodeForgerInfo : ForgerInfo -> Buffer.
Variable decodeForgerInfo : Buffer -> option ForgerInfo.

(** [get] of a missing key rejects with [NotFoundError]. *)
Definition dbGet (db : KVStore Buffer) (key : string) : Result Buffer :=
  match db !! key with
  | Some b => Ok b
  | None => Err "NotFoundError"
  end.

(** The key [`${DB_KEY_FORGER_INFO}:${forgerAddress}`]. *)
Definition forgerInfoKey (forgerAddress : string) : string :=
  DB_KEY_FORGER_INFO ++ ":" ++ forgerAddress.

(** The [debug] calls only log and are left out. *)
Definition getForgerSyncInfo (db : KVStore Buffer) : ForgetSyncInfo :=
  match dbGet db DB_KEY_FORGER_SYNC_INFO with
  | Ok encodedSyncInfo =>
      match decodeSyncInfo encodedSyncInfo with
      | Some info => info
      | None => {| syncUptoHeight := 0 |}
      end
  | Err _ => {| syncUptoHeight := 0 |}
  end.

Definition setForgerSyncInfo (db : KVStore Buffer) (blockHeight : Z) : KVStore Buffer :=
  let encodedSyncInfo := encodeSyncInfo {| syncUptoHeight := blockHeight |} in
  <[DB_KEY_FORGER_SYNC_INFO := encodedSyncInfo]> db.

Definition setForgerInfo (db : KVStore Buffer) (forgerAddress : string) (forgerInfo : ForgerInfo)
    : KVStore Buffer :=
  let encodedForgerInfo := encodeForgerInfo forgerInfo in
  <[forgerInfoKey forgerAddress := encodedForgerInfo]> db.

Definition defaultForgerInfo : ForgerInfo :=
  {| totalProducedBlocks := 0; totalReceivedFees := 0; totalReceivedRewards := 0;
     votesReceived := [] |}.

Definition getForgerInfo (db : KVStore Buffer) (forgerAddress : string) : Result ForgerInfo :=
  match dbGet db (forgerInfoKey forgerAddress) with
  | Err _ => Ok defaultForgerInfo
  | Ok forgerInfo =>
      match decodeForgerInfo forgerInfo with
      | Some info => Ok info
      | None => Err "Invalid forger info encoding"
      end
  end.

End ForgerStore.

Arguments dbGet {Buffer} db key.
Arguments getForgerSyncInfo {Buffer} DB_KEY_FORGER_SYNC_INFO decodeSyncInfo db.
Arguments setForgerSyncInfo {Buffer} DB_KEY_FORGER_SYNC_INFO encodeSyncInfo db blockHeight.
Arguments setForgerInfo {Vote Buffer} DB_KEY_FORGER_INFO encodeForgerInfo db forgerAddress forgerInfo.
Arguments defaultForgerInfo {Vote}.
Arguments getForgerInfo {Vote Buffer} DB_KEY_FORGER_INFO decodeForgerInfo db forgerAddress.

(** A concrete store: buffers are tagged by schema, votes are
    (address, amount) pairs. *)
Module Demo.

Inductive Buf :=
  | BSync (h : Z)
  | BForger (fi : ForgerInfo (string * Z))
  | BJunk.

Definition encodeSync (s : ForgetSyncInfo) : Buf := BSync (syncUptoHeight s).
Definition decodeSync (b : Buf) : option ForgetSyncInfo :=
  match b with BSync h => Some {| syncUptoHeight := h |} | _ => None end.
Definition encodeForger (fi : ForgerInfo (string * Z)) : Buf := BForger fi.
Definition decodeForger (b : Buf) : option (ForgerInfo (string * Z)) :=
  match b with BForger fi => Some fi | _ => None end.

Definition infoKey : string := "forger:info".
Definition syncKey : string := "forger:syncInfo".

Definition info1 : ForgerInfo (string * Z) :=
  {| totalProducedBlocks := 3; totalReceivedFees := 20; totalReceivedRewards := 500;
     votesReceived := [("v", 10)] |}.

Definition db0 : KVStore Buf := <["other" := BJunk]> ∅.

End Demo.

End ForgerDB.

(* ------------------------------------------------------------------ *)
(** ** A small concrete chain: genesis at height 0, the reward schedule of
    the spec's scenario, two validators. *)

Module Fixture.

Definition hdr (id prev : string) (version height timestamp : Z) : BlockHeader :=
  {| h_id := id; h_version := version; h_timestamp := timestamp; h_height := height;
     h_previousBlockID := prev; h_generatorPublicKey := "pk"; h_reward := 0;
     h_signature := "" |}.

Definition genesisHeader : BlockHeader := hdr "g" "" 0 0 100.

Definition genesis : GenesisBlock :=
  {| g_header := genesisHeader; g_initRounds := 3;
     g_initDelegates := ["d1"; "d2"]; g_accounts := [] |}.

Definition genesisAsBlock : Block := {| b_header := genesisHeader; b_payload := [] |}.

Definition rewardArgs : BlockRewardOptions :=
  {| distance := 3000000; rewardOffset := 2160;
     milestones := [500000000; 400000000; 300000000; 200000000; 100000000] |}.

Definition blockTime : Z := 10.

Definition v1 : Validator :=
  {| v_address := "d1"; v_isConsensusParticipant := false; v_minActiveHeight := 1 |}.
Definition v2 : Validator :=
  {| v_address := "d2"; v_isConsensusParticipant := false; v_minActiveHeight := 1 |}.

Definition alice : Account :=
  {| a_address := "alice"; a_balance := 1000; a_isDelegate := false; a_isBanned := false;
     a_pomHeights := [] |}.

Definition world0 : World :=
  {| w_state := <[consensusKey CONSENSUS_STATE_VALIDATORS_KEY := SValidators [v1; v2]]>
                  (<[accountKey "alice" := SAccount alice]> ∅);
     w_blocks := <["g" := genesisAsBlock]> ∅;
     w_diffs := ∅; w_tempBlocks := ∅;
     w_headerCache := [genesisHeader];
     w_lastBlock := genesisAsBlock;
     w_numberOfValidators := 2;
     w_events := []; w_logs := [] |}.

(** [world0] before any validator set was persisted. *)
Definition world0_noValidators : World := w_set_state (<[accountKey "alice" := SAccount alice]> ∅) world0.

Definition emptyStateStore : StateStore :=
  {| ss_updates := ∅; ss_lastBlockHeaders := []; ss_lastBlockReward := 0 |}.

(** A state store in which a block paid alice and rotated the validators. *)
Definition stateStore1 : StateStore :=
  {| ss_updates :=
       <[accountKey "alice" := SAccount {| a_address := "alice"; a_balance := 1500;
            a_isDelegate := false; a_isBanned := false; a_pomHeights := [] |}]>
       (<[accountKey "bob" := SAccount {| a_address := "bob"; a_balance := 7;
            a_isDelegate := false; a_isBanned := false; a_pomHeights := [] |}]>
       (<[consensusKey CONSENSUS_STATE_VALIDATORS_KEY := SValidators [v2]]> ∅));
     ss_lastBlockHeaders := []; ss_lastBlockReward := 0 |}.

(** The child of genesis, at height 1, with header version [version]. *)
Definition block1 (version : Z) : Block :=
  {| b_header := hdr "b1" "g" version 1 110; b_payload := ["tx"] |}.

Definition candidates : list ValidatorCandidate :=
  [ {| c_address := "d2"; c_isConsensusParticipant := true |};
    {| c_address := "d3"; c_isConsensusParticipant := false |} ].

(** A chain of six blocks, heights 0 to 5, with the tip at height 5. *)
Definition blockAt (id prev : string) (n : Z) : Block :=
  {| b_header := hdr id prev 2 n (100 + 10 * n); b_payload := [] |}.

Definition world5 : World :=
  {| w_state := w_state world0;
     w_blocks := <["g" := genesisAsBlock]> (<["b1" := blockAt "b1" "g" 1]> (<["b2" := blockAt "b2" "b1" 2]>
                 (<["b3" := blockAt "b3" "b2" 3]> (<["b4" := blockAt "b4" "b3" 4]>
                 (<["b5" := blockAt "b5" "b4" 5]> ∅)))));
     w_diffs := ∅; w_tempBlocks := ∅;
     w_headerCache := [];
     w_lastBlock := blockAt "b5" "b4" 5;
     w_numberOfValidators := 2;
     w_events := []; w_logs := [] |}.

(** The proof-of-misbehavior test setting: an accused delegate with four
    strikes, a reporter, and two headers of the accused near the tip. *)
Definition accused : Account :=
  {| a_address := "accused"; a_balance := 10000000000; a_isDelegate := true;
     a_isBanned := false; a_pomHeights := [500; 1000; 2000; 4550] |}.

Definition pomAccounts : gmap Address Account :=
  <["accused" := accused]> (<["alice" := alice]> ∅).

Definition pomHeader (id : string) : BlockHeader := hdr id "p" 2 8759990 1000.


(** A genesis block that also allocates alice's account. *)
Definition genesisWithAlice : GenesisBlock :=
  {| g_header := genesisHeader; g_initRounds := 3;
     g_initDelegates := ["d1"; "d2"]; g_accounts := [alice] |}.

(** [world0] with an empty block store. *)
Definition worldEmpty : World := w_set_blocks ∅ world0.

(** A block whose parent is not stored. *)
Definition orphan : Block := blockAt "b9" "zz" 9.

(** A header at height 10, past the last bootstrap height 6 of [genesis]. *)
Definition header10 : BlockHeader := hdr "b10" "b9" 2 10 200.

(** [world0] after [saveBlock] of [block1 2] with [stateStore1]. *)
Definition world1 : World :=
  fst (snd (run (saveBlock 500 (block1 2) 0 false) world0 stateStore1)).

(** [world5] without its genesis block. *)
Definition worldNoGenesis : World := w_set_blocks (delete "g" (w_blocks world5)) world5.

End Fixture.

(* ------------------------------------------------------------------ *)
(** ** Sanity checks on the fixture *)

Example reward_scenario_before_offset :
  calculateDefaultReward Fixture.rewardArgs 100 = 0.
Proof. reflexivity. Qed.

Example reward_scenario_after_offset :
  calculateDefaultReward Fixture.rewardArgs 2161 = 500000000.
Proof. reflexivity. Qed.

Example reward_scenario_exhausted :
  calculateDefaultReward Fixture.rewardArgs (2160 + 3000000 * 9) = 100000000.
Proof. reflexivity. Qed.

Example save_remove_roundtrip_example :
  let '(_, (w1, _)) := run (saveBlock 500 (Fixture.block1 2) 0 false) Fixture.world0 Fixture.stateStore1 in
  let '(r2, (w2, _)) := run (removeBlock Fixture.genesis (Fixture.block1 2) false) w1 Fixture.emptyStateStore in
  r2 = Ok tt /\ w_lastBlock w2 = Fixture.genesisAsBlock /\ w_state w2 = w_state Fixture.world0.
Proof. vm_compute. repeat split. Qed.

(* ------------------------------------------------------------------ *)
(** ** Saving and removing a block *)

(** Reverting the diff recorded by a commit gives back the persisted state
    as it was before the commit. *)
Lemma revertDiff_stateDiffOf (upd st : gmap string StoredValue) :
  revertDiff (stateDiffOf upd st) (upd ∪ st) = st.
Proof.
  apply map_eq; intros i. unfold revertDiff, stateDiffOf.
  rewrite lookup_merge, map_lookup_imap, lookup_union.
  destruct (upd !! i) eqn:E; destruct (st !! i) eqn:E2; simpl; auto.
Qed.

(** The version guard of [removeBlock]: it rejects before any read or
    write, leaving the chain and the state store as they were. *)
Lemma removeBlock_version_guard (genesisBlock : GenesisBlock) (block : Block)
    (saveTempBlock : bool) (w : World) (ss : StateStore) :
  h_version (b_header block) = h_version (g_header genesisBlock) ->
  run (removeBlock genesisBlock block saveTempBlock) w ss
  = (Err "Cannot delete genesis block", (w, ss)).
Proof.
  intros Hv. unfold run, removeBlock. rewrite Hv, Z.eqb_refl. reflexivity.
Qed.

(** C1 (amended). For a block [B] whose header version differs from the
    genesis block's, saved on top of the tip [T] stored under
    [B.previousBlockID] (and whose id is not that of its parent),
    [removeBlock B] after [saveBlock B] succeeds, sets the tip back to [T]
    and leaves the persisted account and consensus state (validator set
    included) exactly as before [saveBlock]. *)
Theorem removeBlock_saveBlock_restores (genesisBlock : GenesisBlock) (maxCache : nat)
    (w : World) (ss ss' : StateStore) (B T : Block) (finalizedHeight : Z)
    (removeFromTempTable saveTempBlock : bool) :
  h_version (b_header B) <> h_version (g_header genesisBlock) ->
  w_lastBlock w = T ->
  w_blocks w !! h_previousBlockID (b_header B) = Some T ->
  h_id (b_header B) <> h_previousBlockID (b_header B) ->
  exists w1 ss1 w2 ss2,
    run (saveBlock maxCache B finalizedHeight removeFromTempTable) w ss = (Ok tt, (w1, ss1)) /\
    run (removeBlock genesisBlock B saveTempBlock) w1 ss' = (Ok tt, (w2, ss2)) /\
    w_lastBlock w2 = w_lastBlock w /\
    w_state w2 = w_state w.
Proof.
  intros Hver Htip Hprev Hid.
  eexists _, _, _, _. split; [reflexivity |].
  unfold run, removeBlock. rewrite (proj2 (Z.eqb_neq _ _) Hver).
  unfold bind, catchM, getBlockByID, getW, ret, throw, modifyW, getSS,
    dataAccess_deleteBlock, removeBlockHeader, emit.
  cbn. rewrite lookup_insert_ne by congruence. rewrite Hprev. cbn.
  rewrite lookup_insert_eq. cbn.
  split; [reflexivity |]. cbn.
  split; [by rewrite Htip |]. apply revertDiff_stateDiffOf.
Qed.

Lemma removeBlock_saveBlock_restores_witness :
  h_version (b_header (Fixture.block1 2)) <> h_version (g_header Fixture.genesis) /\
  exists w1 ss1 w2 ss2,
    run (saveBlock 500 (Fixture.block1 2) 0 false) Fixture.world0 Fixture.stateStore1
      = (Ok tt, (w1, ss1)) /\
    run (removeBlock Fixture.genesis (Fixture.block1 2) false) w1 Fixture.emptyStateStore
      = (Ok tt, (w2, ss2)) /\
    w_lastBlock w2 = w_lastBlock Fixture.world0 /\
    w_state w2 = w_state Fixture.world0.
Proof.
  split; [vm_compute; discriminate |].
  apply (removeBlock_saveBlock_restores Fixture.genesis 500 Fixture.world0 Fixture.stateStore1
           Fixture.emptyStateStore (Fixture.block1 2) Fixture.genesisAsBlock 0 false false).
  - vm_compute. discriminate.
  - reflexivity.
  - reflexivity.
  - vm_compute. discriminate.
Defined.

(** C1 (counterexample). A child of genesis whose header carries the
    genesis block's version (0) is saved on top of genesis; [removeBlock]
    then rejects it, so the tip stays at the new block and the persisted
    state keeps the block's writes. *)
Lemma removeBlock_saveBlock_genesis_version_not_restored :
  exists w1 ss1 w2 ss2,
    run (saveBlock 500 (Fixture.block1 0) 0 false) Fixture.world0 Fixture.stateStore1
      = (Ok tt, (w1, ss1)) /\
    run (removeBlock Fixture.genesis (Fixture.block1 0) false) w1 Fixture.emptyStateStore
      = (Err "Cannot delete genesis block", (w2, ss2)) /\
    w_lastBlock w2 <> w_lastBlock Fixture.world0 /\
    w_state w2 <> w_state Fixture.world0.
Proof.
  eexists _, _, _, _. split; [reflexivity |]. split; [reflexivity |].
  split.
  - vm_compute. discriminate.
  - intros H. apply (f_equal (fun st => st !! accountKey "alice")) in H.
    vm_compute in H. discriminate.
Qed.

(** C2. Whatever the chain state, [removeBlock] on the genesis block
    rejects with "Cannot delete genesis block" and changes nothing: tip,
    persisted state, blocks, diffs, header cache, events and the state
    store are all as before. *)
Theorem removeBlock_genesis_fails (genesisBlock : GenesisBlock) (saveTempBlock : bool)
    (w : World) (ss : StateStore) :
  run (removeBlock genesisBlock (genesisBlockAsBlock genesisBlock) saveTempBlock) w ss
  = (Err "Cannot delete genesis block", (w, ss)).
Proof. apply removeBlock_version_guard. reflexivity. Qed.

(** C8. The genesis guard of [removeBlock] compares header versions: any
    block whose header version equals the genesis block's, genesis or
    not, is rejected with "Cannot delete genesis block" before storage,
    the header cache or the tip are touched. *)
Theorem removeBlock_rejects_genesis_version (genesisBlock : GenesisBlock) (block : Block)
    (saveTempBlock : bool) (w : World) (ss : StateStore) :
  h_version (b_header block) = h_version (g_header genesisBlock) ->
  run (removeBlock genesisBlock block saveTempBlock) w ss
  = (Err "Cannot delete genesis block", (w, ss)).
Proof. apply removeBlock_version_guard. Qed.

Lemma removeBlock_rejects_genesis_version_witness :
  h_version (b_header (Fixture.block1 0)) = h_version (g_header Fixture.genesis) /\
  run (removeBlock Fixture.genesis (Fixture.block1 0) false) Fixture.world0 Fixture.emptyStateStore
  = (Err "Cannot delete genesis block", (Fixture.world0, Fixture.emptyStateStore)).
Proof.
  split; [reflexivity |].
  apply removeBlock_rejects_genesis_version. reflexivity.
Defined.

(* ------------------------------------------------------------------ *)
(** ** Rewards *)

(** C4. The expected reward of a header is the default reward of its
    height when the seed-reveal check of its generator passes, and 0
    otherwise. *)
Theorem calculateExpectedReward_spec (blockRewardArgs : BlockRewardOptions)
    (isValidSeedReveal_verify : BlockHeader -> StateStore -> Z -> bool)
    (w : World) (header : BlockHeader) (ss : StateStore) :
  calculateExpectedReward blockRewardArgs isValidSeedReveal_verify w header ss
  = if isValidSeedReveal isValidSeedReveal_verify w header ss
    then calculateDefaultReward blockRewardArgs (h_height header)
    else 0.
Proof. reflexivity. Qed.

Lemma last_as_nth (l : list Z) (d : Z) :
  l <> [] -> List.last l d = nth (length l - 1)%nat l d.
Proof.
  induction l as [| x l IH]; intros Hne; [congruence |].
  destruct l as [| y l]; [reflexivity |].
  transitivity (List.last (y :: l) d); [reflexivity |].
  rewrite IH by discriminate. simpl. rewrite !Nat.sub_0_r. reflexivity.
Qed.

(** The reward at a height at or past the offset: the milestone of its
    period, or the last one once the list is exhausted. *)
Lemma calculateDefaultReward_after_offset (args : BlockRewardOptions) (h : Z) :
  rewardOffset args <= h ->
  calculateDefaultReward args h
  = if Z.of_nat (length (milestones args)) - 1 <? (h - rewardOffset args) / distance args
    then List.last (milestones args) 0
    else nth (Z.to_nat ((h - rewardOffset args) / distance args)) (milestones args) 0.
Proof.
  intros Hh. unfold calculateDefaultReward.
  destruct (h <? rewardOffset args) eqn:E; [apply Z.ltb_lt in E; lia | reflexivity].
Qed.

(** C3 (counterexample). With the spec's scenario schedule (offset 2160,
    distance 3000000, first milestone 500000000) the reward is 0 at
    height 100 and 500000000 at height 2161: it is not non-increasing
    over all heights. *)
Lemma calculateDefaultReward_not_nonincreasing :
  ~ (forall h1 h2, h1 <= h2 ->
       calculateDefaultReward Fixture.rewardArgs h2 <= calculateDefaultReward Fixture.rewardArgs h1).
Proof.
  intros Hmono. specialize (Hmono 100 2161 ltac:(lia)).
  vm_compute in Hmono. apply Hmono. reflexivity.
Qed.

(** C3 (amended). For a positive distance and a non-empty descending
    milestone list: the reward is 0 below the offset; from the offset on
    it is non-increasing in height; it is constant on each period of
    [distance] blocks after the offset; and once the period index passes
    the end of the list it stays at the last milestone. *)
Theorem calculateDefaultReward_schedule (args : BlockRewardOptions) :
  0 < distance args ->
  milestones args <> [] ->
  descending (milestones args) ->
  (forall h, h < rewardOffset args -> calculateDefaultReward args h = 0) /\
  (forall h1 h2, rewardOffset args <= h1 <= h2 ->
     calculateDefaultReward args h2 <= calculateDefaultReward args h1) /\
  (forall h1 h2, rewardOffset args <= h1 -> rewardOffset args <= h2 ->
     (h1 - rewardOffset args) / distance args = (h2 - rewardOffset args) / distance args ->
     calculateDefaultReward args h1 = calculateDefaultReward args h2) /\
  (forall h, rewardOffset args <= h ->
     Z.of_nat (length (milestones args)) - 1 <= (h - rewardOffset args) / distance args ->
     calculateDefaultReward args h = List.last (milestones args) 0).
Proof.
  intros Hd Hne Hdesc. split; [| split; [| split]].
  - intros h Hh. unfold calculateDefaultReward.
    destruct (h <? rewardOffset args) eqn:E; [reflexivity | apply Z.ltb_ge in E; lia].
  - intros h1 h2 [H1 H12].
    rewrite !calculateDefaultReward_after_offset by lia.
    set (n := Z.of_nat (length (milestones args))).
    set (l1 := (h1 - rewardOffset args) / distance args).
    set (l2 := (h2 - rewardOffset args) / distance args).
    assert (Hl : l1 <= l2) by (apply Z.div_le_mono; lia).
    assert (Hl1 : 0 <= l1) by (apply Z.div_pos; lia).
    assert (Hlen : (0 < length (milestones args))%nat)
      by (destruct (milestones args); [congruence | simpl; lia]).
    rewrite (last_as_nth _ _ Hne).
    destruct (n - 1 <? l2) eqn:E2; destruct (n - 1 <? l1) eqn:E1;
      apply Z.ltb_lt in E2 || apply Z.ltb_ge in E2;
      apply Z.ltb_lt in E1 || apply Z.ltb_ge in E1; subst n.
    + lia.
    + apply Hdesc; lia.
    + lia.
    + apply Hdesc; lia.
  - intros h1 h2 H1 H2 Heq.
    rewrite !calculateDefaultReward_after_offset by lia. rewrite Heq. reflexivity.
  - intros h Hh Hge.
    rewrite calculateDefaultReward_after_offset by lia.
    destruct (Z.of_nat (length (milestones args)) - 1 <? (h - rewardOffset args) / distance args)
      eqn:E; [reflexivity |].
    apply Z.ltb_ge in E.
    assert (Heq : (h - rewardOffset args) / distance args
                  = Z.of_nat (length (milestones args)) - 1) by lia.
    rewrite Heq, (last_as_nth _ _ Hne). f_equal.
    assert (Hlen : (0 < length (milestones args))%nat)
      by (destruct (milestones args); [congruence | simpl; lia]).
    lia.
Qed.

Lemma calculateDefaultReward_schedule_witness :
  (0 < distance Fixture.rewardArgs /\ milestones Fixture.rewardArgs <> [] /\
   descending (milestones Fixture.rewardArgs)) /\
  calculateDefaultReward Fixture.rewardArgs 100 = 0 /\
  calculateDefaultReward Fixture.rewardArgs 3002160
    <= calculateDefaultReward Fixture.rewardArgs 2161.
Proof.
  assert (Hdesc : descending (milestones Fixture.rewardArgs)).
  { intros i j Hij Hj. simpl in Hj.
    destruct i as [| [| [| [| [| i]]]]]; destruct j as [| [| [| [| [| j]]]]];
      simpl; lia. }
  assert (Hne : milestones Fixture.rewardArgs <> []) by discriminate.
  destruct (calculateDefaultReward_schedule Fixture.rewardArgs ltac:(reflexivity) Hne Hdesc)
    as [Hbelow [Hmono _]].
  split; [split; [reflexivity | split; assumption] |].
  split; [apply Hbelow; reflexivity |].
  apply Hmono. simpl. lia.
Defined.

(* ------------------------------------------------------------------ *)
(** ** Validator rotation *)

Lemma nextMinActiveHeight_absent (prev : list Validator) (height : Z) (c : ValidatorCandidate) :
  (forall pv, In pv prev -> v_address pv <> c_address c) ->
  nextMinActiveHeight prev height c = height + 1.
Proof.
  intros Hnone. unfold nextMinActiveHeight.
  destruct (find _ prev) as [pv |] eqn:E; [| reflexivity].
  apply find_some in E as [Hin Heq]. apply String.eqb_eq in Heq.
  exfalso. exact (Hnone pv Hin Heq).
Qed.

Lemma nextMinActiveHeight_present (prev : list Validator) (height : Z) (c : ValidatorCandidate) :
  (exists pv, In pv prev /\ v_address pv = c_address c) ->
  exists pv, In pv prev /\ v_address pv = c_address c /\
             nextMinActiveHeight prev height c = v_minActiveHeight pv.
Proof.
  intros [pv0 [Hin0 Heq0]]. unfold nextMinActiveHeight.
  destruct (find _ prev) as [pv |] eqn:E.
  - apply find_some in E as [Hin Heq]. apply String.eqb_eq in Heq. eauto.
  - exfalso. eapply find_none in E; [| exact Hin0].
    rewrite Heq0, String.eqb_refl in E. discriminate.
Qed.

(** C5. Below the bootstrap height [validatorCount * initRounds +
    genesisHeight], [setValidators] only logs: it resolves, writes
    nothing and emits nothing. At or above it, given a previous validator
    set in the consensus sub-store, it resolves, writes the new set under
    the validators key of the state store and emits [ValidatorsChanged]
    with it; the new set has one entry per candidate, in order, with the
    candidate's address and participation flag, and a [minActiveHeight]
    taken from an entry of the previous set with that address when there
    is one, and [header.height + 1] when there is none. *)
Theorem setValidators_spec (genesisBlock : GenesisBlock) (w : World) (ss : StateStore)
    (candidates : list ValidatorCandidate) (header : BlockHeader) :
  (h_height header < getLastBootstrapHeight genesisBlock w ->
     exists msg,
       run (setValidators genesisBlock candidates header) w ss = (Ok tt, (w_add_log msg w, ss))) /\
  (getLastBootstrapHeight genesisBlock w <= h_height header ->
   forall prev,
     stateStoreConsensusRead w ss CONSENSUS_STATE_VALIDATORS_KEY = Some (SValidators prev) ->
     exists next,
       run (setValidators genesisBlock candidates header) w ss
       = (Ok tt, (w_add_event (EvValidatorsChanged next) w, ss_with_validators ss next)) /\
       length next = length candidates /\
       forall i c, candidates !! i = Some c ->
         exists v, next !! i = Some v /\
           v_address v = c_address c /\
           v_isConsensusParticipant v = c_isConsensusParticipant c /\
           ((exists pv, In pv prev /\ v_address pv = c_address c) ->
              exists pv, In pv prev /\ v_address pv = c_address c /\
                         v_minActiveHeight v = v_minActiveHeight pv) /\
           ((forall pv, In pv prev -> v_address pv <> c_address c) ->
              v_minActiveHeight v = h_height header + 1)).
Proof.
  split.
  - intros Hlt. eexists. unfold run, setValidators, bind, getW.
    cbn. destruct (getLastBootstrapHeight genesisBlock w >? h_height header) eqn:E.
    + reflexivity.
    + rewrite Z.gtb_ltb in E. apply Z.ltb_ge in E. lia.
  - intros Hge prev Hprev.
    exists (nextValidatorSet prev (h_height header) candidates).
    split; [| split].
    + unfold run, setValidators, bind, getW.
      cbn. destruct (getLastBootstrapHeight genesisBlock w >? h_height header) eqn:E.
      { rewrite Z.gtb_ltb in E. apply Z.ltb_lt in E. lia. }
      unfold consensusGet, bind, getW, getSS, ret. cbn. rewrite Hprev. reflexivity.
    + unfold nextValidatorSet. apply length_map.
    + intros i c Hc. eexists. unfold nextValidatorSet.
      rewrite list_lookup_fmap, Hc. split; [reflexivity |]. cbn.
      split; [reflexivity | split; [reflexivity | split]].
      * apply nextMinActiveHeight_present.
      * apply nextMinActiveHeight_absent.
Qed.

Lemma setValidators_spec_witness :
  getLastBootstrapHeight Fixture.genesis Fixture.world0 <= h_height (Fixture.hdr "b10" "b9" 2 10 200) /\
  stateStoreConsensusRead Fixture.world0 Fixture.emptyStateStore CONSENSUS_STATE_VALIDATORS_KEY
    = Some (SValidators [Fixture.v1; Fixture.v2]) /\
  exists next,
    run (setValidators Fixture.genesis Fixture.candidates (Fixture.hdr "b10" "b9" 2 10 200))
        Fixture.world0 Fixture.emptyStateStore
    = (Ok tt, (w_add_event (EvValidatorsChanged next) Fixture.world0,
               ss_with_validators Fixture.emptyStateStore next)) /\
    length next = length Fixture.candidates.
Proof.
  assert (Hge : getLastBootstrapHeight Fixture.genesis Fixture.world0
                <= h_height (Fixture.hdr "b10" "b9" 2 10 200)) by (vm_compute; discriminate).
  assert (Hprev : stateStoreConsensusRead Fixture.world0 Fixture.emptyStateStore
                    CONSENSUS_STATE_VALIDATORS_KEY = Some (SValidators [Fixture.v1; Fixture.v2]))
    by reflexivity.
  split; [exact Hge | split; [exact Hprev |]].
  destruct (proj2 (setValidators_spec Fixture.genesis Fixture.world0 Fixture.emptyStateStore
                     Fixture.candidates (Fixture.hdr "b10" "b9" 2 10 200)) Hge _ Hprev)
    as [next [Hrun [Hlen _]]].
  exists next. split; assumption.
Defined.

(** C10. At or above the bootstrap height, when the consensus sub-store
    (overlay, then persistent store) holds no entry under the validators
    key, [setValidators] rejects with "Previous validator set must exist"
    and leaves the chain (no event) and the state store (no write) as
    they were. *)
Theorem setValidators_missing_previous (genesisBlock : GenesisBlock) (w : World)
    (ss : StateStore) (candidates : list ValidatorCandidate) (header : BlockHeader) :
  getLastBootstrapHeight genesisBlock w <= h_height header ->
  stateStoreConsensusRead w ss CONSENSUS_STATE_VALIDATORS_KEY = None ->
  run (setValidators genesisBlock candidates header) w ss
  = (Err "Previous validator set must exist", (w, ss)).
Proof.
  intros Hge Hnone. unfold run, setValidators, bind, getW.
  cbn. destruct (getLastBootstrapHeight genesisBlock w >? h_height header) eqn:E.
  - rewrite Z.gtb_ltb in E. apply Z.ltb_lt in E. lia.
  - unfold consensusGet, bind, getW, getSS, ret. cbn. rewrite Hnone. reflexivity.
Qed.

Lemma setValidators_missing_previous_witness :
  getLastBootstrapHeight Fixture.genesis Fixture.world0_noValidators
    <= h_height (Fixture.hdr "b10" "b9" 2 10 200) /\
  stateStoreConsensusRead Fixture.world0_noValidators Fixture.emptyStateStore
    CONSENSUS_STATE_VALIDATORS_KEY = None /\
  run (setValidators Fixture.genesis Fixture.candidates (Fixture.hdr "b10" "b9" 2 10 200))
      Fixture.world0_noValidators Fixture.emptyStateStore
  = (Err "Previous validator set must exist", (Fixture.world0_noValidators, Fixture.emptyStateStore)).
Proof.
  assert (Hge : getLastBootstrapHeight Fixture.genesis Fixture.world0_noValidators
                <= h_height (Fixture.hdr "b10" "b9" 2 10 200)) by (vm_compute; discriminate).
  assert (Hnone : stateStoreConsensusRead Fixture.world0_noValidators Fixture.emptyStateStore
                    CONSENSUS_STATE_VALIDATORS_KEY = None) by reflexivity.
  split; [exact Hge | split; [exact Hnone |]].
  apply setValidators_missing_previous; assumption.
Defined.

(* ------------------------------------------------------------------ *)
(** ** Slot assignment *)

(** C9 (counterexample). With genesis timestamp 100, block time 10 and
    the two stored validators [d1; d2], the timestamp 50 lies five slots
    before genesis: [-5 % 2] is [-1] in JavaScript and [validators[-1]] is
    [undefined], although the stored set is not empty. *)
Lemma getValidator_before_genesis_undefined :
  run getValidators Fixture.world0 Fixture.emptyStateStore
    = (Ok [Fixture.v1; Fixture.v2], (Fixture.world0, Fixture.emptyStateStore)) /\
  run (getValidator Fixture.genesis Fixture.blockTime 50) Fixture.world0 Fixture.emptyStateStore
    = (Ok None, (Fixture.world0, Fixture.emptyStateStore)).
Proof. split; reflexivity. Qed.

(** C9 (amended). Let [vs] be the validator set [getValidators] reads.
    When it is empty (or absent), [getValidator] yields no validator for
    every timestamp. For a positive block time and a timestamp not before
    the genesis timestamp, it yields a validator exactly when [vs] is not
    empty, namely [vs[slotNumber(timestamp) mod length vs]]. Nothing is
    written in either case. *)
Theorem getValidator_spec (genesisBlock : GenesisBlock) (blockTime : Z) (w : World)
    (ss : StateStore) (timestamp : Z) (vs : list Validator) :
  run getValidators w ss = (Ok vs, (w, ss)) ->
  (vs = [] ->
     run (getValidator genesisBlock blockTime timestamp) w ss = (Ok None, (w, ss))) /\
  (0 < blockTime -> h_timestamp (g_header genesisBlock) <= timestamp -> vs <> [] ->
     exists v,
       run (getValidator genesisBlock blockTime timestamp) w ss = (Ok (Some v), (w, ss)) /\
       nth_error vs (Z.to_nat (getSlotNumber genesisBlock blockTime timestamp
                                 mod Z.of_nat (length vs))) = Some v).
Proof.
  intros Hvs. unfold run in Hvs |- *. unfold getValidator, bind. rewrite Hvs. cbn.
  split.
  - intros ->. reflexivity.
  - intros Hbt Hts Hne.
    assert (Hlen : 0 < Z.of_nat (length vs))
      by (destruct vs; [congruence | simpl; lia]).
    set (slot := getSlotNumber genesisBlock blockTime timestamp).
    assert (Hslot : 0 <= slot) by (unfold slot, getSlotNumber; apply Z.div_pos; lia).
    unfold jsRemainder. rewrite (proj2 (Z.eqb_neq _ _)) by lia.
    rewrite (Z.rem_mod_nonneg slot) by lia.
    pose proof (Z.mod_pos_bound slot (Z.of_nat (length vs)) Hlen) as [Hlo Hhi].
    cbn. destruct (slot mod Z.of_nat (length vs) <? 0) eqn:E;
      [apply Z.ltb_lt in E; lia |].
    destruct (nth_error vs (Z.to_nat (slot mod Z.of_nat (length vs)))) as [v |] eqn:Ev.
    + exists v. split; reflexivity.
    + apply nth_error_None in Ev. lia.
Qed.

Lemma getValidator_spec_witness :
  run getValidators Fixture.world0 Fixture.emptyStateStore
    = (Ok [Fixture.v1; Fixture.v2], (Fixture.world0, Fixture.emptyStateStore)) /\
  0 < Fixture.blockTime /\ h_timestamp (g_header Fixture.genesis) <= 135 /\
  exists v,
    run (getValidator Fixture.genesis Fixture.blockTime 135) Fixture.world0 Fixture.emptyStateStore
      = (Ok (Some v), (Fixture.world0, Fixture.emptyStateStore)).
Proof.
  assert (Hvs : run getValidators Fixture.world0 Fixture.emptyStateStore
                = (Ok [Fixture.v1; Fixture.v2], (Fixture.world0, Fixture.emptyStateStore)))
    by reflexivity.
  split; [exact Hvs |]. split; [reflexivity |]. split; [discriminate |].
  destruct (proj2 (getValidator_spec Fixture.genesis Fixture.blockTime Fixture.world0
                     Fixture.emptyStateStore 135 _ Hvs) ltac:(reflexivity) ltac:(discriminate)
                     ltac:(discriminate)) as [v [Hrun _]].
  exists v. exact Hrun.
Defined.

(* ------------------------------------------------------------------ *)
(** ** The state store of a new block *)

(** C7 (counterexample). On the six-block chain with tip height 5 and two
    validators, [newStateStore(10)] asks for heights 0 to
    [max(5 - 10, 1) = 1], so its window holds headers above
    [tip.height - skipLastHeights = -5] (the window the claim describes
    is empty), and its last block reward is the default reward of such a
    header, 0, not 1. *)
Lemma newStateStore_window_and_default :
  (exists h, In h (ss_lastBlockHeaders (newStateStore Fixture.rewardArgs Fixture.world5 10)) /\
             5 - 10 < h_height h) /\
  ss_lastBlockReward (newStateStore Fixture.rewardArgs Fixture.world5 10) = 0.
Proof.
  split; [| reflexivity].
  vm_compute. eexists. split; [left; reflexivity | reflexivity].
Qed.

(** C7 (amended). [newStateStore(skipLastHeights)] returns a fresh overlay
    (no pending writes) whose header window is exactly the stored headers
    with heights from [max(0, tip.height - 3 * validatorCount -
    skipLastHeights)] to [max(tip.height - skipLastHeights, 1)], and whose
    last block reward is the default reward of the height of the first
    header of that window, or the default reward of height 1 when the
    window is empty. *)
Theorem newStateStore_spec (blockRewardArgs : BlockRewardOptions) (w : World)
    (skipLastHeights : Z) :
  let ss := newStateStore blockRewardArgs w skipLastHeights in
  let tipHeight := h_height (b_header (w_lastBlock w)) in
  let fromHeight := Z.max 0 (tipHeight - w_numberOfValidators w * 3 - skipLastHeights) in
  let toHeight := Z.max (tipHeight - skipLastHeights) 1 in
  ss_updates ss = ∅ /\
  (forall h, In h (ss_lastBlockHeaders ss) <->
     exists id b, w_blocks w !! id = Some b /\ b_header b = h /\
                  fromHeight <= h_height h <= toHeight) /\
  (ss_lastBlockHeaders ss = [] ->
     ss_lastBlockReward ss = calculateDefaultReward blockRewardArgs 1) /\
  (forall h rest, ss_lastBlockHeaders ss = h :: rest ->
     ss_lastBlockReward ss = calculateDefaultReward blockRewardArgs (h_height h)).
Proof.
  cbn zeta. split; [reflexivity | split; [| split]].
  - intros h. unfold newStateStore, getBlockHeadersByHeightBetween. cbn.
    rewrite <- list_elem_of_In, list_elem_of_filter, list_elem_of_In, in_map_iff.
    split.
    + intros [Hr [[id b] [Hh Hin]]]. cbn in Hh.
      apply list_elem_of_In, elem_of_map_to_list in Hin. eauto.
    + intros (id & b & Hb & Hh & Hr). split; [exact Hr |].
      exists (id, b). split; [exact Hh |].
      apply list_elem_of_In, elem_of_map_to_list. exact Hb.
  - unfold newStateStore. cbn. intros ->. reflexivity.
  - unfold newStateStore. cbn. intros h rest ->. reflexivity.
Qed.

Lemma newStateStore_spec_witness :
  exists h rest,
    ss_lastBlockHeaders (newStateStore Fixture.rewardArgs Fixture.world5 0) = h :: rest /\
    ss_lastBlockReward (newStateStore Fixture.rewardArgs Fixture.world5 0)
      = calculateDefaultReward Fixture.rewardArgs (h_height h).
Proof.
  destruct (ss_lastBlockHeaders (newStateStore Fixture.rewardArgs Fixture.world5 0))
    as [| h rest] eqn:E.
  - vm_compute in E. discriminate.
  - exists h, rest. split; [reflexivity |].
    destruct (newStateStore_spec Fixture.rewardArgs Fixture.world5 0) as [_ [_ [_ Hfirst]]].
    exact (Hfirst h rest E).
Defined.

(* ------------------------------------------------------------------ *)
(** ** Proof-of-misbehavior *)

(** C6. When the proof-of-misbehavior asset applies successfully: the
    reporting height [lastBlockHeight + 1] is appended to the accused's
    strike list; the accused is banned afterwards exactly when the list
    then has 5 entries; the reporter's balance grows by
    [min(lastBlockReward, accusedBalance - minRemainingBalance)] floored
    at 0, taken from the accused, and by 0 when the reporter is the
    accused. *)
Theorem pom_apply_effect (getAddressFromPublicKey : string -> Address)
    (validHeaderSignature : BlockHeader -> bool) (accounts accounts' : gmap Address Account)
    (lastBlockHeight lastBlockReward minRemainingBalance : Z) (sender : Address)
    (header1 header2 : BlockHeader) (delegate senderAccount : Account) :
  let delegateAddress := getAddressFromPublicKey (h_generatorPublicKey header1) in
  let reward :=
    if String.eqb sender delegateAddress then 0
    else Z.max 0 (Z.min lastBlockReward (a_balance delegate - minRemainingBalance)) in
  accounts !! delegateAddress = Some delegate ->
  accounts !! sender = Some senderAccount ->
  Pom.apply getAddressFromPublicKey validHeaderSignature accounts lastBlockHeight
    lastBlockReward minRemainingBalance sender header1 header2 = Ok accounts' ->
  exists delegate' senderAccount',
    accounts' !! delegateAddress = Some delegate' /\
    a_pomHeights delegate' = a_pomHeights delegate ++ [lastBlockHeight + 1] /\
    (a_isBanned delegate' = true <-> length (a_pomHeights delegate') = 5%nat) /\
    accounts' !! sender = Some senderAccount' /\
    a_balance senderAccount' = a_balance senderAccount + reward /\
    (sender <> delegateAddress -> a_balance delegate' = a_balance delegate - reward).
Proof.
  cbn zeta. intros Hd Hs Happ.
  unfold Pom.apply in Happ. cbn zeta in Happ.
  destruct (_ <=? Z.abs (h_height header1 - _)); [discriminate |].
  destruct (_ <=? Z.abs (h_height header2 - _)); [discriminate |].
  destruct (negb (validHeaderSignature header1)); [discriminate |].
  destruct (negb (validHeaderSignature header2)); [discriminate |].
  rewrite Hd in Happ.
  destruct (negb (a_isDelegate delegate)); [discriminate |].
  destruct (a_isBanned delegate) eqn:Hbanned; [discriminate |].
  destruct (existsb _ (a_pomHeights delegate)); [discriminate |].
  injection Happ as <-.
  set (dA := getAddressFromPublicKey (h_generatorPublicKey header1)) in *.
  set (n := length (a_pomHeights delegate ++ [lastBlockHeight + 1])).
  assert (Hban : (if Z.of_nat n =? Pom.MAX_POM_HEIGHTS then true else false) = true <-> n = 5%nat).
  { unfold Pom.MAX_POM_HEIGHTS. destruct (Z.of_nat n =? 5) eqn:E.
    - apply Z.eqb_eq in E. split; [lia | reflexivity].
    - apply Z.eqb_neq in E. split; [discriminate | lia]. }
  destruct (String.eqb sender dA) eqn:Es.
  - apply String.eqb_eq in Es. subst sender.
    rewrite Hd in Hs. injection Hs as <-.
    unfold Pom.credit, Pom.debit.
    rewrite !lookup_alter_eq, lookup_insert_eq. cbn.
    eexists _, _. split; [reflexivity |]. split; [reflexivity |].
    split; [exact Hban |]. split; [reflexivity |]. cbn.
    split; [lia | intros Hne; congruence].
  - apply String.eqb_neq in Es.
    unfold Pom.credit, Pom.debit.
    rewrite lookup_alter_ne by congruence. rewrite lookup_alter_eq, lookup_insert_eq.
    rewrite lookup_alter_eq, lookup_alter_ne by congruence.
    rewrite lookup_insert_ne by congruence. rewrite Hs. cbn.
    eexists _, _. split; [reflexivity |]. split; [reflexivity |].
    split; [exact Hban |]. split; [reflexivity |]. cbn.
    split; [reflexivity | intros _; reflexivity].
Qed.

Lemma pom_apply_effect_witness :
  Fixture.pomAccounts !! "accused" = Some Fixture.accused /\
  Fixture.pomAccounts !! "alice" = Some Fixture.alice /\
  exists accounts',
    Pom.apply (fun _ => "accused") (fun _ => true) Fixture.pomAccounts 8760000 6900000000 5000000
      "alice" (Fixture.pomHeader "h1") (Fixture.pomHeader "h2") = Ok accounts' /\
    exists delegate' alice',
      accounts' !! "accused" = Some delegate' /\
      a_isBanned delegate' = true /\
      accounts' !! "alice" = Some alice' /\
      a_balance alice' = a_balance Fixture.alice + 6900000000.
Proof.
  assert (Hd : Fixture.pomAccounts !! "accused" = Some Fixture.accused) by reflexivity.
  assert (Hs : Fixture.pomAccounts !! "alice" = Some Fixture.alice) by reflexivity.
  split; [exact Hd | split; [exact Hs |]].
  destruct (Pom.apply (fun _ => "accused") (fun _ => true) Fixture.pomAccounts 8760000 6900000000
              5000000 "alice" (Fixture.pomHeader "h1") (Fixture.pomHeader "h2")) as [accounts' | e]
    eqn:Happ.
  - exists accounts'. split; [reflexivity |].
    destruct (pom_apply_effect (fun _ => "accused") (fun _ => true) Fixture.pomAccounts accounts'
                8760000 6900000000 5000000 "alice" (Fixture.pomHeader "h1")
                (Fixture.pomHeader "h2") Fixture.accused Fixture.alice Hd Hs Happ)
      as (delegate' & alice' & Hd' & Hheights & Hban & Hs' & Hbal & _).
    exists delegate', alice'. split; [exact Hd' |]. split.
    + apply Hban. rewrite Hheights. reflexivity.
    + split; [exact Hs' |]. rewrite Hbal. reflexivity.
  - vm_compute in Happ. discriminate.
Defined.

(* ------------------------------------------------------------------ *)
(** ** Further properties of the chain engine and the forger database *)


(** X1. When the block is not of the genesis version and no block is stored
    under its [previousBlockID], [removeBlock] rejects with "PreviousBlock
    is null" before deleting anything: the chain and the state store are
    unchanged. *)
Theorem removeBlock_missing_previous (genesisBlock : GenesisBlock) (block : Block)
    (saveTempBlock : bool) (w : World) (ss : StateStore)
    (Hversion : h_version (b_header block) <> h_version (g_header genesisBlock))
    (Hprev : w_blocks w !! h_previousBlockID (b_header block) = None) :
  run (removeBlock genesisBlock block saveTempBlock) w ss
    = (Err "PreviousBlock is null", (w, ss)).
Proof.
  unfold run, removeBlock. apply Z.eqb_neq in Hversion. rewrite Hversion.
  unfold catchM, getBlockByID, bind, getW, throw, ret. simpl. rewrite Hprev. reflexivity.
Qed.

Lemma removeBlock_missing_previous_witness :
  run (removeBlock Fixture.genesis Fixture.orphan false) Fixture.world0 Fixture.emptyStateStore
    = (Err "PreviousBlock is null", (Fixture.world0, Fixture.emptyStateStore)).
Proof. apply removeBlock_missing_previous; vm_compute; [discriminate | reflexivity]. Defined.

Lemma last_addBlockHeader_cache (maxCache : nat) (cache : list BlockHeader) (h : BlockHeader) :
  (1 <= maxCache)%nat ->
  last (if (maxCache <? length (cache ++ [h]))%nat then tail (cache ++ [h]) else cache ++ [h])
    = Some h.
Proof.
  intros Hmax. destruct (maxCache <? length (cache ++ [h]))%nat eqn:E.
  - destruct cache as [|x cache].
    + simpl in E. apply Nat.ltb_lt in E. lia.
    + simpl. apply last_snoc.
  - apply last_snoc.
Qed.

(** X2. [saveBlock] resolves without touching the state store object; the
    tip becomes the block, the block is stored under its id, the header
    cache ends with its header (for a cache bound of at least 1), the last
    event is [NewBlock] with the block and the state store's updated
    accounts, and the validator count is unchanged. *)
Theorem saveBlock_effects (maxCache : nat) (block : Block) (finalizedHeight : Z)
    (removeFromTempTable : bool) (w : World) (ss : StateStore)
    (Hmax : (1 <= maxCache)%nat) :
  exists w',
    run (saveBlock maxCache block finalizedHeight removeFromTempTable) w ss = (Ok tt, (w', ss)) /\
    w_lastBlock w' = block /\
    w_blocks w' !! h_id (b_header block) = Some block /\
    last (w_headerCache w') = Some (b_header block) /\
    last (w_events w') = Some (EvNewBlock block (getUpdated ss)) /\
    w_numberOfValidators w' = w_numberOfValidators w.
Proof.
  eexists. split; [reflexivity|]. simpl.
  repeat split.
  - apply lookup_insert_eq.
  - apply last_addBlockHeader_cache; exact Hmax.
  - apply last_snoc.
Qed.

Lemma saveBlock_effects_witness :
  exists w',
    run (saveBlock 500 (Fixture.block1 2) 0 false) Fixture.world0 Fixture.stateStore1
      = (Ok tt, (w', Fixture.stateStore1)) /\
    w_lastBlock w' = Fixture.block1 2 /\
    w_blocks w' !! h_id (b_header (Fixture.block1 2)) = Some (Fixture.block1 2) /\
    last (w_headerCache w') = Some (b_header (Fixture.block1 2)) /\
    last (w_events w') = Some (EvNewBlock (Fixture.block1 2) (getUpdated Fixture.stateStore1)) /\
    w_numberOfValidators w' = w_numberOfValidators Fixture.world0.
Proof. apply saveBlock_effects. lia. Defined.


(** X3. When the block is not of the genesis version, its parent is stored
    and its state diff exists, [removeBlock] resolves: the tip becomes the
    parent, the block and its diff are gone from storage, no cached header
    has the block's id, and the last event is [DeleteBlock] for the
    block. *)
Theorem removeBlock_effects (genesisBlock : GenesisBlock) (block : Block)
    (saveTempBlock : bool) (w : World) (ss : StateStore) (previous : Block) (d : StateDiff)
    (Hversion : h_version (b_header block) <> h_version (g_header genesisBlock))
    (Hprev : w_blocks w !! h_previousBlockID (b_header block) = Some previous)
    (Hdiff : w_diffs w !! h_id (b_header block) = Some d) :
  exists w' accounts,
    run (removeBlock genesisBlock block saveTempBlock) w ss = (Ok tt, (w', ss)) /\
    w_lastBlock w' = previous /\
    w_blocks w' !! h_id (b_header block) = None /\
    w_diffs w' !! h_id (b_header block) = None /\
    Forall (fun h => h_id h <> h_id (b_header block)) (w_headerCache w') /\
    last (w_events w') = Some (EvDeleteBlock block accounts).
Proof.
  unfold run, removeBlock. apply Z.eqb_neq in Hversion. rewrite Hversion.
  unfold catchM, getBlockByID, dataAccess_deleteBlock, removeBlockHeader, emit,
    bind, getW, modifyW, throw, ret. simpl. rewrite Hprev. simpl. rewrite Hdiff. simpl.
  eexists _, _. split; [reflexivity|]. simpl.
  repeat split.
  - apply lookup_delete_eq.
  - apply lookup_delete_eq.
  - apply Forall_forall. intros h Hin. rewrite list_elem_of_filter in Hin.
    tauto.
  - apply last_snoc.
Qed.




Lemma setValidators_run_skip (genesisBlock : GenesisBlock) (w : World) (ss : StateStore)
    (candidates : list ValidatorCandidate) (header : BlockHeader) :
  h_height header < getLastBootstrapHeight genesisBlock w ->
  exists msg,
    run (setValidators genesisBlock candidates header) w ss = (Ok tt, (w_add_log msg w, ss)).
Proof.
  intros Hlt. eexists. unfold run, setValidators, bind, getW.
  cbn. destruct (getLastBootstrapHeight genesisBlock w >? h_height header) eqn:E.
  - reflexivity.
  - rewrite Z.gtb_ltb in E. apply Z.ltb_ge in E. lia.
Qed.

Lemma setValidators_run_write (genesisBlock : GenesisBlock) (w : World) (ss : StateStore)
    (candidates : list ValidatorCandidate) (header : BlockHeader) (prev : list Validator) :
  getLastBootstrapHeight genesisBlock w <= h_height header ->
  stateStoreConsensusRead w ss CONSENSUS_STATE_VALIDATORS_KEY = Some (SValidators prev) ->
  run (setValidators genesisBlock candidates header) w ss
  = (Ok tt, (w_add_event (EvValidatorsChanged (nextValidatorSet prev (h_height header) candidates)) w,
             ss_with_validators ss (nextValidatorSet prev (h_height header) candidates))).
Proof.
  intros Hge Hprev. unfold run, setValidators, bind, getW.
  cbn. destruct (getLastBootstrapHeight genesisBlock w >? h_height header) eqn:E.
  - rewrite Z.gtb_ltb in E. apply Z.ltb_lt in E. lia.
  - unfold consensusGet, bind, getW, getSS, ret. cbn. rewrite Hprev. reflexivity.
Qed.

(** [nextMinActiveHeight] reads only the candidate's address. *)
Lemma nextMinActiveHeight_address (prev : list Validator) (height : Z)
    (c c' : ValidatorCandidate) :
  c_address c = c_address c' ->
  nextMinActiveHeight prev height c = nextMinActiveHeight prev height c'.
Proof. intros Heq. unfold nextMinActiveHeight. rewrite Heq. reflexivity. Qed.

Lemma find_nextValidatorSet (prev : list Validator) (height : Z)
    (l : list ValidatorCandidate) (c : ValidatorCandidate) :
  In c l ->
  exists c', c_address c' = c_address c /\
    find (fun pv => String.eqb (v_address pv) (c_address c)) (nextValidatorSet prev height l)
    = Some {| v_address := c_address c';
              v_isConsensusParticipant := c_isConsensusParticipant c';
              v_minActiveHeight := nextMinActiveHeight prev height c' |}.
Proof.
  induction l as [| a l IH]; intros Hin; [destruct Hin |].
  unfold nextValidatorSet. simpl.
  destruct (String.eqb (c_address a) (c_address c)) eqn:E.
  - apply String.eqb_eq in E. exists a. split; [exact E | reflexivity].
  - destruct Hin as [-> | Hin].
    + rewrite String.eqb_refl in E. discriminate.
    + exact (IH Hin).
Qed.

Lemma nextValidatorSet_idempotent (prev : list Validator) (height : Z)
    (cs : list ValidatorCandidate) :
  nextValidatorSet (nextValidatorSet prev height cs) height cs = nextValidatorSet prev height cs.
Proof.
  unfold nextValidatorSet at 1 3. apply map_ext_in. intros c Hin. f_equal.
  destruct (find_nextValidatorSet prev height cs c Hin) as [c' [Haddr Hfind]].
  unfold nextMinActiveHeight at 1. rewrite Hfind. simpl.
  apply nextMinActiveHeight_address. exact Haddr.
Qed.

Lemma ss_with_validators_twice (ss : StateStore) (vs vs' : list Validator) :
  ss_with_validators (ss_with_validators ss vs) vs' = ss_with_validators ss vs'.
Proof. unfold ss_with_validators. simpl. rewrite insert_insert_eq. reflexivity. Qed.

Lemma getLastBootstrapHeight_add_event (genesisBlock : GenesisBlock) (e : ChainEvent) (w : World) :
  getLastBootstrapHeight genesisBlock (w_add_event e w) = getLastBootstrapHeight genesisBlock w.
Proof. reflexivity. Qed.

Lemma getLastBootstrapHeight_add_log (genesisBlock : GenesisBlock) (msg : string) (w : World) :
  getLastBootstrapHeight genesisBlock (w_add_log msg w) = getLastBootstrapHeight genesisBlock w.
Proof. reflexivity. Qed.

(** X4. [setValidators] is idempotent: after a successful call, calling it
    again with the same candidates and header succeeds and leaves the
    state store exactly as the first call left it. *)
Theorem setValidators_idempotent (genesisBlock : GenesisBlock)
    (candidates : list ValidatorCandidate) (header : BlockHeader)
    (w w1 : World) (ss ss1 : StateStore)
    (Hfirst : run (setValidators genesisBlock candidates header) w ss = (Ok tt, (w1, ss1))) :
  exists w2, run (setValidators genesisBlock candidates header) w1 ss1 = (Ok tt, (w2, ss1)).
Proof.
  destruct (Z_lt_le_dec (h_height header) (getLastBootstrapHeight genesisBlock w)) as [Hlt | Hge].
  - destruct (setValidators_run_skip genesisBlock w ss candidates header Hlt) as [msg Hrun].
    rewrite Hrun in Hfirst. injection Hfirst as <- <-.
    rewrite <- (getLastBootstrapHeight_add_log genesisBlock msg w) in Hlt.
    destruct (setValidators_run_skip genesisBlock (w_add_log msg w) ss candidates header Hlt)
      as [msg' Hrun'].
    eexists. exact Hrun'.
  - destruct (stateStoreConsensusRead w ss CONSENSUS_STATE_VALIDATORS_KEY) as [v |] eqn:R.
    + destruct v as [a | prev | b].
      * exfalso. revert Hfirst. unfold run, setValidators, bind, getW. cbn.
        destruct (getLastBootstrapHeight genesisBlock w >? h_height header) eqn:E.
        { rewrite Z.gtb_ltb in E. apply Z.ltb_lt in E. lia. }
        unfold consensusGet, bind, getW, getSS, ret. cbn. rewrite R. cbn. discriminate.
      * rewrite (setValidators_run_write genesisBlock w ss candidates header prev Hge R) in Hfirst.
        injection Hfirst as <- <-.
        set (next := nextValidatorSet prev (h_height header) candidates).
        rewrite <- (getLastBootstrapHeight_add_event genesisBlock (EvValidatorsChanged next) w) in Hge.
        assert (R1 : stateStoreConsensusRead (w_add_event (EvValidatorsChanged next) w)
                       (ss_with_validators ss next) CONSENSUS_STATE_VALIDATORS_KEY
                     = Some (SValidators next)).
        { unfold stateStoreConsensusRead, ss_with_validators. simpl.
          rewrite lookup_insert_eq. reflexivity. }
        rewrite (setValidators_run_write genesisBlock _ _ candidates header next Hge R1).
        eexists. unfold next. rewrite nextValidatorSet_idempotent, ss_with_validators_twice.
        reflexivity.
      * exfalso. revert Hfirst. unfold run, setValidators, bind, getW. cbn.
        destruct (getLastBootstrapHeight genesisBlock w >? h_height header) eqn:E.
        { rewrite Z.gtb_ltb in E. apply Z.ltb_lt in E. lia. }
        unfold consensusGet, bind, getW, getSS, ret. cbn. rewrite R. cbn. discriminate.
    + exfalso. revert Hfirst. unfold run, setValidators, bind, getW. cbn.
      destruct (getLastBootstrapHeight genesisBlock w >? h_height header) eqn:E.
      { rewrite Z.gtb_ltb in E. apply Z.ltb_lt in E. lia. }
      unfold consensusGet, bind, getW, getSS, ret. cbn. rewrite R. cbn. discriminate.
Qed.

(** X5. From the genesis timestamp on, with a positive block time and a
    persisted validator set of [n] entries, [getValidator] returns the same
    result at timestamps [t] and [t + blockTime * n]. *)
Theorem getValidator_periodic (genesisBlock : GenesisBlock) (blockTime : Z) (w : World)
    (ss : StateStore) (vs : list Validator) (t : Z)
    (HblockTime : 0 < blockTime)
    (Ht : h_timestamp (g_header genesisBlock) <= t)
    (Hvs : w_state w !! consensusKey CONSENSUS_STATE_VALIDATORS_KEY = Some (SValidators vs)) :
  run (getValidator genesisBlock blockTime (t + blockTime * Z.of_nat (length vs))) w ss
  = run (getValidator genesisBlock blockTime t) w ss.
Proof.
  unfold run, getValidator, getValidators, getConsensusState, bind, getW, ret. simpl.
  rewrite Hvs. simpl. f_equal. f_equal. unfold jsRemainder, getSlotNumber.
  set (n := Z.of_nat (length vs)).
  destruct (n =? 0) eqn:E; [reflexivity |]. apply Z.eqb_neq in E.
  set (ts := h_timestamp (g_header genesisBlock)).
  replace (t + blockTime * n - ts) with ((t - ts) + n * blockTime) by ring.
  rewrite Z.div_add by lia.
  assert (Hs : 0 <= (t - ts) / blockTime) by (apply Z.div_pos; lia).
  assert (Hn : 0 <= n) by (unfold n; lia).
  replace ((t - ts) / blockTime + n) with ((t - ts) / blockTime + 1 * n) by ring.
  rewrite Z.rem_add by nia. reflexivity.
Qed.


Lemma forEach_accountSet (accounts : list Account) (w : World) (ss : StateStore) :
  forEach (fun account => accountSet (a_address account) account) accounts (w, ss)
  = (Ok tt, (w, {| ss_updates := writeAccounts accounts (ss_updates ss);
                   ss_lastBlockHeaders := ss_lastBlockHeaders ss;
                   ss_lastBlockReward := ss_lastBlockReward ss |})).
Proof.
  revert ss. induction accounts as [| a accounts IH]; intros ss.
  - destruct ss. reflexivity.
  - simpl. unfold bind at 1. unfold accountSet, modifySS. simpl. rewrite IH. reflexivity.
Qed.

Lemma applyGenesisBlock_run (block : GenesisBlock) (w : World) (ss : StateStore) :
  run (applyGenesisBlock block) w ss
  = (Ok tt, (w_set_numberOfValidators (Z.of_nat (length (g_initDelegates block))) w,
             {| ss_updates := <[consensusKey CONSENSUS_STATE_VALIDATORS_KEY :=
                                  SValidators (initialValidatorsOf block)]>
                                (writeAccounts (g_accounts block) (ss_updates ss));
                ss_lastBlockHeaders := ss_lastBlockHeaders ss;
                ss_lastBlockReward := ss_lastBlockReward ss |})).
Proof.
  unfold run, applyGenesisBlock. unfold bind at 1. rewrite forEach_accountSet.
  reflexivity.
Qed.

Lemma accountKey_inj (a b : Address) : accountKey a = accountKey b -> a = b.
Proof. unfold accountKey. simpl. intros H. injection H. auto. Qed.

Lemma consensusKey_not_accountKey (k : string) (a : Address) : consensusKey k <> accountKey a.
Proof. unfold consensusKey, accountKey. simpl. discriminate. Qed.

Lemma writeAccounts_other (accounts : list Account) (upd : gmap string StoredValue) (k : string) :
  (forall account, In account accounts -> k <> accountKey (a_address account)) ->
  writeAccounts accounts upd !! k = upd !! k.
Proof.
  revert upd. induction accounts as [| a accounts IH]; intros upd Hk; [reflexivity |].
  simpl. rewrite IH by (intros b Hb; apply Hk; right; exact Hb).
  apply lookup_insert_ne. intros Heq. apply (Hk a); [left; reflexivity | symmetry; exact Heq].
Qed.

Lemma writeAccounts_in (accounts : list Account) (upd : gmap string StoredValue) (account : Account) :
  NoDup (map a_address accounts) -> In account accounts ->
  writeAccounts accounts upd !! accountKey (a_address account) = Some (SAccount account).
Proof.
  revert upd. induction accounts as [| a accounts IH]; intros upd Hnd Hin; [destruct Hin |].
  simpl in Hnd. apply NoDup_cons in Hnd as [Hnotin Hnd]. simpl.
  destruct Hin as [-> | Hin].
  - rewrite writeAccounts_other.
    + apply lookup_insert_eq.
    + intros b Hb Heq. apply accountKey_inj in Heq. apply Hnotin.
      rewrite Heq. apply list_elem_of_In, in_map. exact Hb.
  - apply IH; assumption.
Qed.



(** The [minActiveHeight] given to a candidate against the initial set. *)
Lemma nextMinActiveHeight_initial (block : GenesisBlock) (height : Z) (c : ValidatorCandidate) :
  nextMinActiveHeight (initialValidatorsOf block) height c
  = if existsb (String.eqb (c_address c)) (g_initDelegates block)
    then h_height (g_header block) + 1 else height + 1.
Proof.
  unfold nextMinActiveHeight, initialValidatorsOf.
  induction (g_initDelegates block) as [| d ds IH]; [reflexivity |].
  simpl. rewrite (String.eqb_sym d (c_address c)).
  destruct (String.eqb (c_address c) d); [reflexivity | exact IH].
Qed.

(** X7. After [applyGenesisBlock], a [setValidators] at or above the
    bootstrap height [initDelegates * initRounds + genesisHeight] writes
    and announces one validator per candidate whose [minActiveHeight] is
    the genesis height + 1 for an initial delegate and [header.height + 1]
    for any other address. *)
Theorem applyGenesisBlock_then_setValidators (block : GenesisBlock)
    (candidates : list ValidatorCandidate) (header : BlockHeader) (w : World) (ss : StateStore)
    (Hheight : Z.of_nat (length (g_initDelegates block)) * g_initRounds block
               + h_height (g_header block) <= h_height header) :
  exists w' ss',
    run (applyGenesisBlock block ;;; setValidators block candidates header) w ss
      = (Ok tt, (w', ss')) /\
    let next :=
      map (fun c =>
             {| v_address := c_address c;
                v_isConsensusParticipant := c_isConsensusParticipant c;
                v_minActiveHeight :=
                  if existsb (String.eqb (c_address c)) (g_initDelegates block)
                  then h_height (g_header block) + 1 else h_height header + 1 |})
        candidates in
    ss_updates ss' !! consensusKey CONSENSUS_STATE_VALIDATORS_KEY = Some (SValidators next) /\
    last (w_events w') = Some (EvValidatorsChanged next).
Proof.
  pose proof (applyGenesisBlock_run block w ss) as Happly. unfold run in Happly.
  unfold run, bind at 1. rewrite Happly.
  set (w1 := w_set_numberOfValidators _ w). set (ss1 := {| ss_updates := _ |}).
  assert (Hge : getLastBootstrapHeight block w1 <= h_height header) by exact Hheight.
  assert (Hread : stateStoreConsensusRead w1 ss1 CONSENSUS_STATE_VALIDATORS_KEY
                  = Some (SValidators (initialValidatorsOf block))).
  { unfold stateStoreConsensusRead, ss1. simpl. rewrite lookup_insert_eq. reflexivity. }
  pose proof (setValidators_run_write block w1 ss1 candidates header _ Hge Hread) as Hset.
  unfold run in Hset. rewrite Hset.
  assert (Hnext : nextValidatorSet (initialValidatorsOf block) (h_height header) candidates
    = map (fun c =>
             {| v_address := c_address c;
                v_isConsensusParticipant := c_isConsensusParticipant c;
                v_minActiveHeight :=
                  if existsb (String.eqb (c_address c)) (g_initDelegates block)
                  then h_height (g_header block) + 1 else h_height header + 1 |})
        candidates).
  { unfold nextValidatorSet. apply map_ext. intros c. rewrite nextMinActiveHeight_initial.
    reflexivity. }
  rewrite Hnext. eexists _, _. split; [reflexivity |]. simpl. split.
  - apply lookup_insert_eq.
  - apply last_snoc.
Qed.


Lemma bind_Ok {A B} (m : M A) (k : A -> M B) (s s' : World * StateStore) (a : A) :
  m s = (Ok a, s') -> bind m k s = k a s'.
Proof. intros H. unfold bind. rewrite H. reflexivity. Qed.

Lemma bind_Err {A B} (m : M A) (k : A -> M B) (s s' : World * StateStore) (e : string) :
  m s = (Err e, s') -> bind m k s = (Err e, s').
Proof. intros H. unfold bind. rewrite H. reflexivity. Qed.

Lemma highestBlock_nil_iff (l : list Block) : highestBlock l = None <-> l = [].
Proof.
  split; [| intros ->; reflexivity].
  destruct l as [| b l]; [reflexivity |]. simpl.
  destruct (highestBlock l) as [a |]; [destruct (_ <? _) |]; discriminate.
Qed.

Lemma highestBlock_max (l : list Block) (b : Block) :
  highestBlock l = Some b ->
  In b l /\ forall b', In b' l -> h_height (b_header b') <= h_height (b_header b).
Proof.
  revert b. induction l as [| x l IH]; intros b H; [discriminate |].
  simpl in H. destruct (highestBlock l) as [a |] eqn:E.
  - destruct (IH a eq_refl) as [Hin Hmax].
    destruct (h_height (b_header a) <? h_height (b_header x)) eqn:L; injection H as <-.
    + apply Z.ltb_lt in L. split; [left; reflexivity |].
      intros b' [<- | Hb']; [lia |]. specialize (Hmax b' Hb'). lia.
    + apply Z.ltb_ge in L. split; [right; exact Hin |].
      intros b' [<- | Hb']; [lia | exact (Hmax b' Hb')].
  - apply highestBlock_nil_iff in E as ->. injection H as <-.
    split; [left; reflexivity |]. intros b' [<- | []]. lia.
Qed.

Lemma getLastBlock_run (w : World) (ss : StateStore) :
  getLastBlock (w, ss)
  = (match highestBlock (map snd (map_to_list (w_blocks w))) with
     | Some b => Ok b
     | None => Err "NotFoundError: last block"
     end, (w, ss)).
Proof.
  unfold getLastBlock, bind, getW. simpl.
  destruct (highestBlock _); reflexivity.
Qed.

Lemma highestBlock_blocks_empty (w : World) :
  highestBlock (map snd (map_to_list (w_blocks w))) = None <-> w_blocks w = ∅.
Proof.
  rewrite highestBlock_nil_iff, <- map_to_list_empty_iff.
  split; [apply map_eq_nil | intros ->; reflexivity].
Qed.

Lemma getValidators_run (w : World) (ss : StateStore) (vs : list Validator) :
  w_state w !! consensusKey CONSENSUS_STATE_VALIDATORS_KEY = Some (SValidators vs) ->
  getValidators (w, ss) = (Ok vs, (w, ss)).
Proof.
  intros Hvs. unfold getValidators, getConsensusState, bind, getW, ret. simpl.
  rewrite Hvs. reflexivity.
Qed.

Lemma Sorted_suffix {A} (R : A -> A -> Prop) (l1 l2 : list A) :
  suffix l1 l2 -> Sorted R l2 -> Sorted R l1.
Proof.
  intros [k ->]. induction k as [| x k IH]; intros H; [exact H |].
  apply IH. simpl in H. apply Sorted_inv in H. apply H.
Qed.

Lemma suffix_addBlockHeader (maxCache : nat) (cache : list BlockHeader) (h : BlockHeader) :
  suffix (if (maxCache <? length (cache ++ [h]))%nat then tail (cache ++ [h]) else cache ++ [h])
         (cache ++ [h]).
Proof.
  destruct (_ <? _)%nat; [| reflexivity].
  destruct (cache ++ [h]) as [| x c]; [reflexivity |]. simpl. exists [x]. reflexivity.
Qed.

Lemma forEach_addBlockHeader (maxCache : nat) (l : list BlockHeader) (w : World)
    (ss : StateStore) :
  exists w',
    forEach (fun blockHeader =>
               debug "Add block header to cache" ;;;
               addBlockHeader maxCache blockHeader) l (w, ss) = (Ok tt, (w', ss)) /\
    w_state w' = w_state w /\ w_blocks w' = w_blocks w /\
    suffix (w_headerCache w') (w_headerCache w ++ l).
Proof.
  revert w. induction l as [| h l IH]; intros w.
  - exists w. split; [reflexivity |]. split; [reflexivity | split; [reflexivity |]].
    rewrite app_nil_r. reflexivity.
  - simpl. unfold bind at 1.
    set (c := w_headerCache w ++ [h]).
    set (w1 := w_set_headerCache (if (maxCache <? length c)%nat then tail c else c)
                 (w_add_log "Add block header to cache" w)).
    destruct (IH w1) as [w' [Hrun [Hst [Hbl Hsuf]]]].
    exists w'. split; [exact Hrun |]. split; [exact Hst | split; [exact Hbl |]].
    etrans; [exact Hsuf |]. unfold w1. simpl.
    replace (w_headerCache w ++ h :: l) with ((w_headerCache w ++ [h]) ++ l)
      by (rewrite <- app_assoc; reflexivity).
    apply suffix_app. apply suffix_addBlockHeader.
Qed.

Lemma cacheBlockHeaders_run (maxCache : nat) (D : Z) (b : Block) (w : World) (ss : StateStore) :
  exists w',
    cacheBlockHeaders maxCache D b (w, ss) = (Ok tt, (w', ss)) /\
    w_state w' = w_state w /\ w_blocks w' = w_blocks w /\
    suffix (w_headerCache w')
      (w_headerCache w ++
       merge_sort heightLe
         (getBlockHeadersByHeightBetween w (Z.max (h_height (b_header b) - D) 0)
            (h_height (b_header b)))).
Proof.
  unfold cacheBlockHeaders, debug, modifyW. unfold bind at 1. simpl.
  unfold bind, getW. simpl.
  destruct (forEach_addBlockHeader maxCache
              (merge_sort heightLe
                 (getBlockHeadersByHeightBetween w (Z.max (h_height (b_header b) - D) 0)
                    (h_height (b_header b))))
              (w_add_log "Cache block headers during chain init" w) ss)
    as [w' [Hrun [Hst [Hbl Hsuf]]]].
  exists w'. split; [exact Hrun | split; [exact Hst | split; [exact Hbl | exact Hsuf]]].
Qed.

Lemma init_run (genesisBlock : GenesisBlock) (maxCache : nat) (D : Z) (w : World)
    (ss : StateStore) (vs : list Validator) (b : Block) :
  highestBlock (map snd (map_to_list (w_blocks w))) = Some b ->
  w_state w !! consensusKey CONSENSUS_STATE_VALIDATORS_KEY = Some (SValidators vs) ->
  exists w',
    run (init genesisBlock maxCache D) w ss
      = (Ok tt, (w_set_lastBlock b (w_set_numberOfValidators (Z.of_nat (length vs)) w'), ss)) /\
    w_state w' = w_state w /\ w_blocks w' = w_blocks w /\
    (h_height (b_header b) = h_height (g_header genesisBlock) ->
       w_headerCache w' = w_headerCache w) /\
    (h_height (b_header b) <> h_height (g_header genesisBlock) ->
       suffix (w_headerCache w')
         (w_headerCache w ++
          merge_sort heightLe
            (getBlockHeadersByHeightBetween w (Z.max (h_height (b_header b) - D) 0)
               (h_height (b_header b))))).
Proof.
  intros Hb Hvs. unfold run, init.
  rewrite (bind_Ok _ _ (w, ss) (w, ss) b)
    by (unfold catchM; rewrite getLastBlock_run, Hb; reflexivity).
  destruct (h_height (b_header b) =? h_height (g_header genesisBlock)) eqn:E; cbn [negb].
  - apply Z.eqb_eq in E.
    rewrite (bind_Ok _ _ (w, ss) (w, ss) tt) by reflexivity.
    rewrite (bind_Ok _ _ (w, ss) (w, ss) vs) by (apply getValidators_run; exact Hvs).
    exists w. split; [reflexivity |].
    split; [reflexivity | split; [reflexivity | split; [reflexivity | contradiction]]].
  - apply Z.eqb_neq in E.
    destruct (cacheBlockHeaders_run maxCache D b w ss) as [w' [Hrun [Hst [Hbl Hsuf]]]].
    rewrite (bind_Ok _ _ (w, ss) (w', ss) tt) by exact Hrun.
    rewrite (bind_Ok _ _ (w', ss) (w', ss) vs) by (apply getValidators_run; rewrite Hst; exact Hvs).
    exists w'. split; [reflexivity |].
    split; [exact Hst | split; [exact Hbl | split; [contradiction | intros _; exact Hsuf]]].
Qed.

(** X8. On a store with no block, [init] rejects with "Failed to load last
    block" and changes nothing. *)
Theorem init_empty_store (genesisBlock : GenesisBlock) (maxCache : nat) (D : Z) (w : World)
    (ss : StateStore) (Hempty : w_blocks w = ∅) :
  run (init genesisBlock maxCache D) w ss = (Err "Failed to load last block", (w, ss)).
Proof.
  unfold run, init. apply bind_Err. unfold catchM. rewrite getLastBlock_run.
  apply highestBlock_blocks_empty in Hempty. rewrite Hempty. reflexivity.
Qed.

Lemma stored_block_in_list (m : gmap string Block) (id : string) (b : Block) :
  m !! id = Some b -> In b (map snd (map_to_list m)).
Proof.
  intros H. apply (in_map snd (map_to_list m) (id, b)).
  apply list_elem_of_In, elem_of_map_to_list. exact H.
Qed.

Lemma in_list_stored_block (m : gmap string Block) (b : Block) :
  In b (map snd (map_to_list m)) -> exists id, m !! id = Some b.
Proof.
  intros H. apply in_map_iff in H as [[id b'] [<- Hin]].
  exists id. apply elem_of_map_to_list, list_elem_of_In. exact Hin.
Qed.

(** X9. On a non-empty store with a persisted validator set, [init]
    resolves: the tip becomes a stored block of greatest height, the
    validator count becomes the length of the persisted set, and the
    persisted state and blocks are unchanged. *)
Theorem init_loads_tip (genesisBlock : GenesisBlock) (maxCache : nat) (D : Z) (w : World)
    (ss : StateStore) (vs : list Validator)
    (Hnonempty : w_blocks w <> ∅)
    (Hvs : w_state w !! consensusKey CONSENSUS_STATE_VALIDATORS_KEY = Some (SValidators vs)) :
  exists w',
    run (init genesisBlock maxCache D) w ss = (Ok tt, (w', ss)) /\
    (exists id, w_blocks w !! id = Some (w_lastBlock w')) /\
    (forall id b, w_blocks w !! id = Some b ->
       h_height (b_header b) <= h_height (b_header (w_lastBlock w'))) /\
    w_numberOfValidators w' = Z.of_nat (length vs) /\
    w_state w' = w_state w /\ w_blocks w' = w_blocks w.
Proof.
  destruct (highestBlock (map snd (map_to_list (w_blocks w)))) as [b |] eqn:Hb.
  2: { apply highestBlock_blocks_empty in Hb. contradiction. }
  destruct (init_run genesisBlock maxCache D w ss vs b Hb Hvs)
    as [w' [Hrun [Hst [Hbl _]]]].
  destruct (highestBlock_max _ b Hb) as [Hin Hmax].
  eexists. split; [exact Hrun |]. simpl.
  split; [| split; [| split; [reflexivity | split; assumption]]].
  - apply in_list_stored_block. exact Hin.
  - intros id b' Hb'. apply Hmax. apply (stored_block_in_list _ id). exact Hb'.
Qed.

Lemma heightLe_total : Total heightLe.
Proof. intros a b. unfold heightLe. lia. Qed.



Lemma genesisBlockExist_run (genesisBlock : GenesisBlock) (w : World) (ss : StateStore) :
  run (genesisBlockExist genesisBlock) w ss
  = (match highestBlock (map snd (map_to_list (w_blocks w))),
           w_blocks w !! h_id (g_header genesisBlock) with
     | Some _, None => Err "Genesis block does not match"
     | None, None => Ok false
     | _, _ => Ok true
     end, (w, ss)).
Proof.
  unfold run, genesisBlockExist.
  set (m1 := match w_blocks w !! h_id (g_header genesisBlock) with
             | Some b => Some (b_header b) | None => None end).
  rewrite (bind_Ok _ _ (w, ss) (w, ss) m1).
  2: { unfold m1, catchM, getBlockHeaderByID, getBlockByID, bind, getW, ret, throw. simpl.
       destruct (w_blocks w !! h_id (g_header genesisBlock)); reflexivity. }
  set (m2 := match highestBlock (map snd (map_to_list (w_blocks w))) with
             | Some b => Some (b_header b) | None => None end).
  rewrite (bind_Ok _ _ (w, ss) (w, ss) m2).
  2: { unfold m2, catchM, getLastBlockHeader, getLastBlock, bind, getW, ret, throw. simpl.
       destruct (highestBlock _); reflexivity. }
  unfold m1, m2.
  destruct (highestBlock _), (w_blocks w !! _); reflexivity.
Qed.

(** X11. [genesisBlockExist] changes nothing and returns false on an empty
    store, true when a block is stored under the genesis id, and rejects
    with "Genesis block does not match" when the store has blocks but none
    under the genesis id. *)
Theorem genesisBlockExist_spec (genesisBlock : GenesisBlock) (w : World) (ss : StateStore) :
  (w_blocks w = ∅ ->
     run (genesisBlockExist genesisBlock) w ss = (Ok false, (w, ss))) /\
  (forall b, w_blocks w !! h_id (g_header genesisBlock) = Some b ->
     run (genesisBlockExist genesisBlock) w ss = (Ok true, (w, ss))) /\
  (w_blocks w <> ∅ -> w_blocks w !! h_id (g_header genesisBlock) = None ->
     run (genesisBlockExist genesisBlock) w ss
     = (Err "Genesis block does not match", (w, ss))).
Proof.
  rewrite genesisBlockExist_run. split; [| split].
  - intros Hempty. pose proof Hempty as Hempty'.
    apply highestBlock_blocks_empty in Hempty. rewrite Hempty, Hempty'.
    rewrite lookup_empty. reflexivity.
  - intros b Hb. rewrite Hb. destruct (highestBlock _); reflexivity.
  - intros Hne Hnone. rewrite Hnone.
    destruct (highestBlock _) eqn:Hh; [reflexivity |].
    apply highestBlock_blocks_empty in Hh. contradiction.
Qed.



Lemma string_app_cancel_l (p a b : string) : (p ++ a)%string = (p ++ b)%string -> a = b.
Proof. induction p as [| c p IH]; simpl; [auto | intros H; injection H; auto]. Qed.

Lemma forgerInfoKey_inj (K a b : string) :
  ForgerDB.forgerInfoKey K a = ForgerDB.forgerInfoKey K b -> a = b.
Proof.
  unfold ForgerDB.forgerInfoKey. intros H.
  apply string_app_cancel_l in H. simpl in H. injection H. auto.
Qed.

(** X12. Reading the sync info after [setForgerSyncInfo(h)] gives
    [syncUptoHeight = h] (for a codec that decodes what it encodes), and
    the forger info of any address whose key differs from the sync key is
    unchanged. *)
Theorem forgerSyncInfo_roundtrip {Vote Buffer : Type} (K_INFO K_SYNC : string)
    (encodeSyncInfo : ForgerDB.ForgetSyncInfo -> Buffer)
    (decodeSyncInfo : Buffer -> option ForgerDB.ForgetSyncInfo)
    (decodeForgerInfo : Buffer -> option (ForgerDB.ForgerInfo Vote))
    (db : ForgerDB.KVStore Buffer) (blockHeight : Z)
    (Hcodec : decodeSyncInfo (encodeSyncInfo {| ForgerDB.syncUptoHeight := blockHeight |})
              = Some {| ForgerDB.syncUptoHeight := blockHeight |}) :
  ForgerDB.getForgerSyncInfo K_SYNC decodeSyncInfo
    (ForgerDB.setForgerSyncInfo K_SYNC encodeSyncInfo db blockHeight)
  = {| ForgerDB.syncUptoHeight := blockHeight |} /\
  forall forgerAddress, ForgerDB.forgerInfoKey K_INFO forgerAddress <> K_SYNC ->
    ForgerDB.getForgerInfo K_INFO decodeForgerInfo
      (ForgerDB.setForgerSyncInfo K_SYNC encodeSyncInfo db blockHeight) forgerAddress
    = ForgerDB.getForgerInfo K_INFO decodeForgerInfo db forgerAddress.
Proof.
  unfold ForgerDB.getForgerSyncInfo, ForgerDB.setForgerSyncInfo, ForgerDB.getForgerInfo,
    ForgerDB.dbGet.
  split.
  - rewrite lookup_insert_eq, Hcodec. reflexivity.
  - intros forgerAddress Hkey.
    rewrite lookup_insert_ne by (intros Heq; apply Hkey; symmetry; exact Heq).
    reflexivity.
Qed.

Lemma forgerSyncInfo_roundtrip_witness :
  ForgerDB.getForgerSyncInfo ForgerDB.Demo.syncKey ForgerDB.Demo.decodeSync
    (ForgerDB.setForgerSyncInfo ForgerDB.Demo.syncKey ForgerDB.Demo.encodeSync ForgerDB.Demo.db0 42)
  = {| ForgerDB.syncUptoHeight := 42 |}.
Proof.
  exact (proj1 (@forgerSyncInfo_roundtrip (string * Z) ForgerDB.Demo.Buf
                  ForgerDB.Demo.infoKey ForgerDB.Demo.syncKey ForgerDB.Demo.encodeSync
                  ForgerDB.Demo.decodeSync ForgerDB.Demo.decodeForger ForgerDB.Demo.db0 42
                  eq_refl)).
Defined.


(** X14. A missing or undecodable sync info entry reads as
    [syncUptoHeight = 0]; a missing forger info entry reads as all-zero
    totals with no votes, but an undecodable one makes [getForgerInfo]
    reject. *)
Theorem forgerDB_undecodable_entries {Vote Buffer : Type} (K_INFO K_SYNC : string)
    (decodeSyncInfo : Buffer -> option ForgerDB.ForgetSyncInfo)
    (decodeForgerInfo : Buffer -> option (ForgerDB.ForgerInfo Vote))
    (db : ForgerDB.KVStore Buffer) (forgerAddress : string) (syncBuf infoBuf : Buffer)
    (HbadSync : decodeSyncInfo syncBuf = None)
    (HbadInfo : decodeForgerInfo infoBuf = None) :
  ForgerDB.getForgerSyncInfo K_SYNC decodeSyncInfo (delete K_SYNC db)
  = {| ForgerDB.syncUptoHeight := 0 |} /\
  ForgerDB.getForgerSyncInfo K_SYNC decodeSyncInfo (<[K_SYNC := syncBuf]> db)
  = {| ForgerDB.syncUptoHeight := 0 |} /\
  ForgerDB.getForgerInfo K_INFO decodeForgerInfo
    (delete (ForgerDB.forgerInfoKey K_INFO forgerAddress) db) forgerAddress
  = Ok ForgerDB.defaultForgerInfo /\
  ForgerDB.getForgerInfo K_INFO decodeForgerInfo
    (<[ForgerDB.forgerInfoKey K_INFO forgerAddress := infoBuf]> db) forgerAddress
  = Err "Invalid forger info encoding".
Proof.
  unfold ForgerDB.getForgerSyncInfo, ForgerDB.getForgerInfo, ForgerDB.dbGet.
  rewrite !lookup_delete_eq, !lookup_insert_eq, HbadSync, HbadInfo.
  repeat split.
Qed.


Lemma removeBlock_effects_witness :
  exists w' accounts,
    run (removeBlock Fixture.genesis (Fixture.block1 2) false) Fixture.world1 Fixture.emptyStateStore
      = (Ok tt, (w', Fixture.emptyStateStore)) /\
    w_lastBlock w' = Fixture.genesisAsBlock /\
    w_blocks w' !! h_id (b_header (Fixture.block1 2)) = None /\
    w_diffs w' !! h_id (b_header (Fixture.block1 2)) = None /\
    Forall (fun h => h_id h <> h_id (b_header (Fixture.block1 2))) (w_headerCache w') /\
    last (w_events w') = Some (EvDeleteBlock (Fixture.block1 2) accounts).
Proof.
  apply (removeBlock_effects Fixture.genesis (Fixture.block1 2) false Fixture.world1
           Fixture.emptyStateStore Fixture.genesisAsBlock
           (stateDiffOf (ss_updates Fixture.stateStore1) (w_state Fixture.world0)));
    vm_compute; [discriminate | reflexivity | reflexivity].
Defined.

Lemma setValidators_idempotent_witness :
  exists w2,
    run (setValidators Fixture.genesis Fixture.candidates Fixture.header10)
      (fst (snd (run (setValidators Fixture.genesis Fixture.candidates Fixture.header10)
                   Fixture.world0 Fixture.emptyStateStore)))
      (snd (snd (run (setValidators Fixture.genesis Fixture.candidates Fixture.header10)
                   Fixture.world0 Fixture.emptyStateStore)))
    = (Ok tt, (w2, snd (snd (run (setValidators Fixture.genesis Fixture.candidates Fixture.header10)
                              Fixture.world0 Fixture.emptyStateStore)))).
Proof.
  apply (setValidators_idempotent Fixture.genesis Fixture.candidates Fixture.header10
           Fixture.world0 _ Fixture.emptyStateStore _). vm_compute. reflexivity.
Defined.

Lemma getValidator_periodic_witness :
  run (getValidator Fixture.genesis Fixture.blockTime (125 + Fixture.blockTime * 2))
    Fixture.world0 Fixture.emptyStateStore
  = run (getValidator Fixture.genesis Fixture.blockTime 125) Fixture.world0 Fixture.emptyStateStore.
Proof.
  apply (getValidator_periodic Fixture.genesis Fixture.blockTime Fixture.world0
           Fixture.emptyStateStore [Fixture.v1; Fixture.v2] 125);
    vm_compute; [reflexivity | discriminate | reflexivity].
Defined.

Lemma applyGenesisBlock_then_setValidators_witness :
  exists w' ss',
    run (applyGenesisBlock Fixture.genesis ;;;
         setValidators Fixture.genesis Fixture.candidates Fixture.header10)
      Fixture.world0_noValidators Fixture.emptyStateStore = (Ok tt, (w', ss')) /\
    let next :=
      map (fun c =>
             {| v_address := c_address c;
                v_isConsensusParticipant := c_isConsensusParticipant c;
                v_minActiveHeight :=
                  if existsb (String.eqb (c_address c)) (g_initDelegates Fixture.genesis)
                  then h_height (g_header Fixture.genesis) + 1
                  else h_height Fixture.header10 + 1 |})
        Fixture.candidates in
    ss_updates ss' !! consensusKey CONSENSUS_STATE_VALIDATORS_KEY = Some (SValidators next) /\
    last (w_events w') = Some (EvValidatorsChanged next).
Proof.
  apply applyGenesisBlock_then_setValidators. vm_compute. discriminate.
Defined.

Lemma init_empty_store_witness :
  run (init Fixture.genesis 500 3) Fixture.worldEmpty Fixture.emptyStateStore
  = (Err "Failed to load last block", (Fixture.worldEmpty, Fixture.emptyStateStore)).
Proof. apply init_empty_store. reflexivity. Defined.

Lemma init_loads_tip_witness :
  exists w',
    run (init Fixture.genesis 500 3) Fixture.world5 Fixture.emptyStateStore
      = (Ok tt, (w', Fixture.emptyStateStore)) /\
    (exists id, w_blocks Fixture.world5 !! id = Some (w_lastBlock w')) /\
    (forall id b, w_blocks Fixture.world5 !! id = Some b ->
       h_height (b_header b) <= h_height (b_header (w_lastBlock w'))) /\
    w_numberOfValidators w' = Z.of_nat (length [Fixture.v1; Fixture.v2]) /\
    w_state w' = w_state Fixture.world5 /\ w_blocks w' = w_blocks Fixture.world5.
Proof.
  apply init_loads_tip; vm_compute; [discriminate | reflexivity].
Defined.


Lemma genesisBlockExist_spec_witness :
  run (genesisBlockExist Fixture.genesis) Fixture.worldNoGenesis Fixture.emptyStateStore
  = (Err "Genesis block does not match", (Fixture.worldNoGenesis, Fixture.emptyStateStore)).
Proof.
  apply (proj2 (proj2 (genesisBlockExist_spec Fixture.genesis Fixture.worldNoGenesis
                         Fixture.emptyStateStore)));
    vm_compute; [discriminate | reflexivity].
Defined.


Lemma forgerDB_undecodable_entries_witness :
  ForgerDB.getForgerSyncInfo ForgerDB.Demo.syncKey ForgerDB.Demo.decodeSync
    (<[ForgerDB.Demo.syncKey := ForgerDB.Demo.BJunk]> ForgerDB.Demo.db0)
  = {| ForgerDB.syncUptoHeight := 0 |} /\
  ForgerDB.getForgerInfo ForgerDB.Demo.infoKey ForgerDB.Demo.decodeForger
    (<[ForgerDB.forgerInfoKey ForgerDB.Demo.infoKey "alice" := ForgerDB.Demo.BSync 7]>
       ForgerDB.Demo.db0) "alice"
  = Err "Invalid forger info encoding".
Proof.
  destruct (forgerDB_undecodable_entries ForgerDB.Demo.infoKey ForgerDB.Demo.syncKey
              ForgerDB.Demo.decodeSync ForgerDB.Demo.decodeForger ForgerDB.Demo.db0 "alice"
              ForgerDB.Demo.BJunk (ForgerDB.Demo.BSync 7) eq_refl eq_refl)
    as [_ [Hsync [_ Hinfo]]].
  split; [exact Hsync | exact Hinfo].
Defined.
